(** * storageUnit: the tiered cache / persister orchestration layer

    A shallow embedding of [storageUnit/storageunit.go] and
    [monitoring/monitoring.go].  Every Go function becomes a Rocq function
    of the same name; the mutable collaborators (cacher, persister,
    persister factory, the process-wide monitoring counter, the wall clock)
    become explicit state that is passed in and returned.

    The read/write lock of [Unit] serialises its operations; each modelled
    operation is one critical section, so the lock itself carries no state
    here. Calls to the logger are not modelled. *)

From Stdlib Require Import ZArith Strings.Byte Strings.Ascii.
From stdpp Require Import base option list gmap strings.

Local Open Scope Z_scope.

(** ** Go values *)

Module Go.

(** A [[]byte]. [None] is the nil slice, [Some l] a slice with contents
    [l] (possibly empty). *)
Abbreviation ByteSlice := (option (list byte)).

Definition bytes_of (b : ByteSlice) : list byte := default [] b.

(** [len(b)] *)
Definition len (b : ByteSlice) : Z := Z.of_nat (length (bytes_of b)).

(** An [interface{}] value: the nil interface, a [[]byte], or a value of
    some other dynamic type (identified by a tag). *)
Inductive Any : Type :=
| VNil
| VBytes (b : ByteSlice)
| VOther (tag : nat).

(** The two-result type assertion [buff, ok := v.([]byte)]. *)
Definition assert_bytes (v : Any) : ByteSlice * bool :=
  match v with
  | VBytes b => (b, true)
  | _ => (None, false)
  end.

(** A call either returns or panics (the one-result type assertion
    [v.([]byte)] panics when [v] does not hold a byte slice). *)
Inductive outcome (A : Type) : Type :=
| Ret (a : A)
| Panic.
Global Arguments Ret {A} a.
Global Arguments Panic {A}.

(** Two's-complement conversion to a signed integer of [w] bits. *)
Definition wrap_signed (w z : Z) : Z :=
  (z + 2 ^ (w - 1)) mod 2 ^ w - 2 ^ (w - 1).

(** The size of Go's [int] depends on the target. *)
Class Arch := {
  intSize : Z;
  intSize_cases : intSize = 32 \/ intSize = 64
}.

(** [int(x)] and [int64(x)] *)
Definition to_int `{Arch} (z : Z) : Z := wrap_signed intSize z.
Definition to_int64 (z : Z) : Z := wrap_signed 64 z.

Definition uint32_range (z : Z) : Prop := 0 <= z < 2 ^ 32.
Definition uint64_range (z : Z) : Prop := 0 <= z < 2 ^ 64.
Definition int_range `{Arch} (z : Z) : Prop :=
  - 2 ^ (intSize - 1) <= z < 2 ^ (intSize - 1).

(** [time.Duration] counts nanoseconds. *)
Definition Second : Z := 1000000000.

(** Error values. The sentinels of package [common] and of this package
    are constructors; [Errorf] is an error made by [fmt.Errorf] from a
    finished message, [ErrorfW] one that wraps a sentinel with
    ["%w, provided %d, minimum %d"]; [ErrForeign] stands for the errors
    that collaborators (persisters, factories, cache engines) return. *)
Inductive Error : Type :=
| ErrNilPersisterFactory
| ErrOldestEpochNotAvailable
| ErrNilPersister
| ErrNilCacher
| ErrCacheSizeIsLowerThanBatchSize
| ErrLRUCacheWithProvidedSize
| ErrLRUCacheInvalidSize
| ErrNotSupportedCacheType
| Errorf (msg : string)
| ErrorfW (wrapped : Error) (provided minimum : Z)
| ErrForeign (code : nat).

(** [check.IfNil]: true for the nil interface and for a value whose
    [IsInterfaceNil] method answers true. *)
Definition IfNil {T : Type} (isInterfaceNil : T -> bool) (x : option T) : bool :=
  match x with
  | None => true
  | Some t => isInterfaceNil t
  end.

End Go.
Export Go.

(** ** [base64.StdEncoding.EncodeToString] *)

Module Base64.

Definition alphabet : string :=
  "ABCDEFGHIJKLMNOPQRSTUVWXYZabcdefghijklmnopqrstuvwxyz0123456789+/".

Definition digit (n : N) : ascii :=
  default "="%char (String.get (N.to_nat n) alphabet).

Definition sextet (shift : N) (group : N) : ascii :=
  digit (N.land (N.shiftr group shift) 63).

Fixpoint encode (l : list byte) : string :=
  match l with
  | [] => EmptyString
  | [a] =>
      let g := N.shiftl (Byte.to_N a) 16 in
      String (sextet 18 g) (String (sextet 12 g) "==")
  | [a; b] =>
      let g := N.lor (N.shiftl (Byte.to_N a) 16) (N.shiftl (Byte.to_N b) 8) in
      String (sextet 18 g) (String (sextet 12 g) (String (sextet 6 g) "="))
  | a :: b :: c :: rest =>
      let g := N.lor (N.lor (N.shiftl (Byte.to_N a) 16)
                            (N.shiftl (Byte.to_N b) 8)) (Byte.to_N c) in
      String (sextet 18 g) (String (sextet 12 g)
        (String (sextet 6 g) (String (sextet 0 g) (encode rest))))
  end.

Definition EncodeToString (b : ByteSlice) : string := encode (bytes_of b).

End Base64.

(** ** Collaborators *)

Module storageCore.

(** [data.KeyValuePair] *)
Record KeyValuePair := {
  Key : ByteSlice;
  Value : ByteSlice
}.

End storageCore.

Module types.

(** Modelled from the spec: the declaration of the [types.Cacher]
    interface is not among the sources. A cacher is a bounded key to value
    mapping whose every operation may reorder or evict entries, so every
    method returns the cacher's next state. [Put] reports whether an entry
    was evicted; the storage unit ignores that result. *)
Class Cacher (C : Type) := {
  Cacher_Put : C -> ByteSlice -> Any -> Z -> C * bool;
  Cacher_Get : C -> ByteSlice -> C * (Any * bool);
  Cacher_Has : C -> ByteSlice -> C * bool;
  Cacher_Remove : C -> ByteSlice -> C;
  Cacher_Clear : C -> C;
  Cacher_IsInterfaceNil : C -> bool
}.

(** Modelled from the spec: the declaration of the [types.Persister]
    interface is not among the sources. [Get] hands back a value together
    with an error, and the value it hands back need not be a byte slice. *)
Class Persister (P : Type) := {
  Persister_Put : P -> ByteSlice -> ByteSlice -> P * option Error;
  Persister_Get : P -> ByteSlice -> P * (Any * option Error);
  Persister_Has : P -> ByteSlice -> P * option Error;
  Persister_Remove : P -> ByteSlice -> P * option Error;
  Persister_Close : P -> P * option Error;
  Persister_Destroy : P -> P * option Error;
  Persister_IsInterfaceNil : P -> bool
}.

End types.
Export types.

(** The constructors of the cache engines, packages [lrucache] and
    [fifocache], whose sources are not given: parameters of the model. *)
Class CacheEngines (C : Type) := {
  lrucache_NewCache : Z -> option C * option Error;
  lrucache_NewCacheWithSizeInBytes : Z -> Z -> option C * option Error;
  fifocache_NewShardedCache : Z -> Z -> option C * option Error
}.

(** ** The world outside the storage unit *)

(** What construction does to its surroundings, in the order it happens. *)
Inductive Event : Type :=
| EvMonitorNewCache (tag : string) (sizeInBytes : Z)
| EvNewLRUCache (size : Z)
| EvNewSizeLRUCache (size sizeInBytes : Z)
| EvNewShardedCache (size shards : Z)
| EvCreate (path : string)
| EvSleep (d : Z).

Record World := {
  cumulatedSizeInBytes : Z;       (* monitoring's atomic int64 counter *)
  history : list Event
}.

Definition record (e : Event) (w : World) : World :=
  {| cumulatedSizeInBytes := cumulatedSizeInBytes w;
     history := history w ++ [e] |}.

Module monitoring.

(** [MonitorNewCache] adds the size to the cumulated size. *)
Definition MonitorNewCache (tag : string) (sizeInBytes : Z) (w : World) : World :=
  record (EvMonitorNewCache tag sizeInBytes)
    {| cumulatedSizeInBytes :=
         to_int64 (cumulatedSizeInBytes w + to_int64 sizeInBytes);
       history := history w |}.

End monitoring.

(** ** Package [storageUnit] *)

Module storageUnit.

(** Cache types that are currently supported *)
Definition LRUCache : string := "LRU".
Definition SizeLRUCache : string := "SizeLRU".
Definition FIFOShardedCache : string := "FIFOSharded".

Definition minimumSizeForLRUCache : Z := 1024.

(** The maximum number of times to try to create the DB if it failed *)
Definition MaxRetriesToCreateDB : nat := 10.

(** The time to sleep between DB creates *)
Definition SleepTimeBetweenCreateDBRetries : Z := 5 * Second.

Module CacheConfig.
Record t := {
  Name : string;
  Type_ : string;
  SizeInBytes : Z;            (* uint64 *)
  SizeInBytesPerSender : Z;   (* uint32 *)
  Capacity : Z;               (* uint32 *)
  SizePerSender : Z;          (* uint32 *)
  Shards : Z                  (* uint32 *)
}.

Definition well_formed (c : t) : Prop :=
  uint64_range (SizeInBytes c) /\ uint32_range (SizeInBytesPerSender c) /\
  uint32_range (Capacity c) /\ uint32_range (SizePerSender c) /\
  uint32_range (Shards c).
End CacheConfig.

Module DBConfig.
Record t := {
  FilePath : string;
  Type_ : string;
  BatchDelaySeconds : Z;      (* int *)
  MaxBatchSize : Z;           (* int *)
  MaxOpenFiles : Z            (* int *)
}.

Definition well_formed `{Arch} (c : t) : Prop :=
  int_range (BatchDelaySeconds c) /\ int_range (MaxBatchSize c) /\
  int_range (MaxOpenFiles c).
End DBConfig.

(** [PersisterFactoryHandler]: a component able to create persisters.
    A call may change the factory, so [Create] returns its next state. *)
Class PersisterFactoryHandler (F P : Type) := {
  Factory_Create : F -> string -> F * (option P * option Error);
  Factory_IsInterfaceNil : F -> bool
}.

Section Unit.

Context {C P : Type} `{!Cacher C, !Persister P}.

(** A storer's data bank, holding the cache and the persistence unit.
    Both handles are non-nil, as [NewStorageUnit] builds it. *)
Record Unit := {
  persister : P;
  cacher : C
}.

(** [Put] adds data to both cache and persistence medium *)
Definition Put (u : Unit) (key data : ByteSlice) : Unit * option Error :=
  let '(c1, _) := Cacher_Put (cacher u) key (VBytes data) (len data) in
  let '(p1, err) := Persister_Put (persister u) key data in
  match err with
  | Some e => ({| persister := p1; cacher := Cacher_Remove c1 key |}, Some e)
  | None => ({| persister := p1; cacher := c1 |}, None)
  end.

(** [PutInEpoch] calls [Put], as this storer doesn't handle epochs *)
Definition PutInEpoch (u : Unit) (key data : ByteSlice) (_ : Z)
  : Unit * option Error :=
  Put u key data.

(** [GetOldestEpoch] *)
Definition GetOldestEpoch (u : Unit) : Z * option Error :=
  (0, Some ErrOldestEpochNotAvailable).

(** [Close] *)
Definition Close (u : Unit) : Unit * option Error :=
  let c1 := Cacher_Clear (cacher u) in
  let '(p1, err) := Persister_Close (persister u) in
  match err with
  | Some e => ({| persister := p1; cacher := c1 |}, Some e)
  | None => ({| persister := p1; cacher := c1 |}, None)
  end.

(** The closing statement of [Get], [return v.([]byte), nil]. *)
Definition return_bytes (u : Unit) (v : Any)
  : outcome (Unit * (ByteSlice * option Error)) :=
  match v with
  | VBytes b => Ret (u, (b, None))
  | _ => Panic
  end.

(** [Get] searches the key in the cache. In case it is not found, it
    further searches it in the associated database. In case it is found
    in the database, the cache is updated with the value as well. *)
Definition Get (u : Unit) (key : ByteSlice)
  : outcome (Unit * (ByteSlice * option Error)) :=
  let '(c1, (v, ok)) := Cacher_Get (cacher u) key in
  if negb ok then
    let '(p1, (v1, err)) := Persister_Get (persister u) key in
    match err with
    | Some e => Ret ({| persister := p1; cacher := c1 |}, (None, Some e))
    | None =>
        let '(buff, okAssertion) := assert_bytes v1 in
        if negb okAssertion then
          Ret ({| persister := p1; cacher := c1 |},
               (None, Some (Errorf ("key: " +:+ Base64.EncodeToString key
                                    +:+ " is not a byte slice"))))
        else
          let '(c2, _) := Cacher_Put c1 key v1 (len buff) in
          return_bytes {| persister := p1; cacher := c2 |} v1
    end
  else
    return_bytes {| persister := persister u; cacher := c1 |} v.

(** [GetFromEpoch] calls [Get], as this storer doesn't handle epochs *)
Definition GetFromEpoch (u : Unit) (key : ByteSlice) (_ : Z)
  : outcome (Unit * (ByteSlice * option Error)) :=
  Get u key.

(** The [for _, key := range keys] loop of [GetBulkFromEpoch];
    [results] is the slice built so far. *)
Fixpoint GetBulkFromEpoch_loop (u : Unit) (keys : list ByteSlice)
    (results : list storageCore.KeyValuePair)
  : outcome (Unit * list storageCore.KeyValuePair) :=
  match keys with
  | [] => Ret (u, results)
  | key :: keys' =>
      match Get u key with
      | Panic => Panic
      | Ret (u1, (value, Some _)) => GetBulkFromEpoch_loop u1 keys' results
      | Ret (u1, (value, None)) =>
          GetBulkFromEpoch_loop u1 keys'
            (results ++ [ {| storageCore.Key := key; storageCore.Value := value |} ])
      end
  end.

(** [GetBulkFromEpoch] calls [Get] for all keys *)
Definition GetBulkFromEpoch (u : Unit) (keys : list ByteSlice) (_ : Z)
  : outcome (Unit * (list storageCore.KeyValuePair * option Error)) :=
  match GetBulkFromEpoch_loop u keys [] with
  | Panic => Panic
  | Ret (u1, results) => Ret (u1, (results, None))
  end.

(** [Has] first checks the cache. If it is not found, it checks the db *)
Definition Has (u : Unit) (key : ByteSlice) : Unit * option Error :=
  let '(c1, has) := Cacher_Has (cacher u) key in
  if has then ({| persister := persister u; cacher := c1 |}, None)
  else
    let '(p1, err) := Persister_Has (persister u) key in
    ({| persister := p1; cacher := c1 |}, err).

(** [SearchFirst] calls [Get], as this storer doesn't handle epochs *)
Definition SearchFirst (u : Unit) (key : ByteSlice)
  : outcome (Unit * (ByteSlice * option Error)) :=
  Get u key.

(** [Remove] removes the data associated to the given key from both
    cache and persistence medium *)
Definition Remove (u : Unit) (key : ByteSlice) : Unit * option Error :=
  let c1 := Cacher_Remove (cacher u) key in
  let '(p1, err) := Persister_Remove (persister u) key in
  ({| persister := p1; cacher := c1 |}, err).

(** [RemoveFromCurrentEpoch] *)
Definition RemoveFromCurrentEpoch (u : Unit) (key : ByteSlice)
  : Unit * option Error :=
  Remove u key.

(** [ClearCache] cleans up the entire cache *)
Definition ClearCache (u : Unit) : Unit :=
  {| persister := persister u; cacher := Cacher_Clear (cacher u) |}.

(** [DestroyUnit] cleans up the cache, and the db *)
Definition DestroyUnit (u : Unit) : Unit * option Error :=
  let c1 := Cacher_Clear (cacher u) in
  let '(p1, err) := Persister_Destroy (persister u) in
  ({| persister := p1; cacher := c1 |}, err).

(** [NewStorageUnit] creates a storage unit from the given cacher and
    persister. *)
Definition NewStorageUnit (c : option C) (p : option P)
  : option Unit * option Error :=
  if IfNil Persister_IsInterfaceNil p then (None, Some ErrNilPersister)
  else if IfNil Cacher_IsInterfaceNil c then (None, Some ErrNilCacher)
  else
    match c, p with
    | Some c0, Some p0 => (Some {| persister := p0; cacher := c0 |}, None)
    | None, _ => (None, Some ErrNilCacher)       (* excluded by IfNil *)
    | _, None => (None, Some ErrNilPersister)    (* excluded by IfNil *)
    end.

End Unit.
Global Arguments Unit : clear implicits.

Section Construction.

Context `{Arch} {C P F : Type}
  `{!Cacher C, !Persister P, !CacheEngines C, !PersisterFactoryHandler F P}.

(** The end of [NewCache]: [if err != nil { return nil, err }],
    [return cacher, nil]. *)
Definition NewCache_return (w : World) (cacher : option C) (err : option Error)
  : World * (option C * option Error) :=
  match err with
  | Some e => (w, (None, Some e))
  | None => (w, (cacher, None))
  end.

(** [NewCache] creates a new cache from a cache config *)
Definition NewCache (config : CacheConfig.t) (w : World)
  : World * (option C * option Error) :=
  let w0 := monitoring.MonitorNewCache
              (CacheConfig.Name config) (CacheConfig.SizeInBytes config) w in
  let cacheType := CacheConfig.Type_ config in
  let capacity := CacheConfig.Capacity config in
  let shards := CacheConfig.Shards config in
  let sizeInBytes := CacheConfig.SizeInBytes config in
  if String.eqb cacheType LRUCache then
    if negb (sizeInBytes =? 0) then (w0, (None, Some ErrLRUCacheWithProvidedSize))
    else
      let '(cacher, err) := lrucache_NewCache (to_int capacity) in
      NewCache_return (record (EvNewLRUCache (to_int capacity)) w0) cacher err
  else if String.eqb cacheType SizeLRUCache then
    if sizeInBytes <? minimumSizeForLRUCache then
      (w0, (None, Some (ErrorfW ErrLRUCacheInvalidSize
                                sizeInBytes minimumSizeForLRUCache)))
    else
      let '(cacher, err) :=
        lrucache_NewCacheWithSizeInBytes (to_int capacity) (to_int64 sizeInBytes) in
      NewCache_return
        (record (EvNewSizeLRUCache (to_int capacity) (to_int64 sizeInBytes)) w0)
        cacher err
  else if String.eqb cacheType FIFOShardedCache then
    let '(cacher, err) :=
      fifocache_NewShardedCache (to_int capacity) (to_int shards) in
    let w1 := record (EvNewShardedCache (to_int capacity) (to_int shards)) w0 in
    match err with
    | Some e => (w1, (None, Some e))
    | None => NewCache_return w1 cacher err
    end
  else (w0, (None, Some ErrNotSupportedCacheType)).

(** The retry loop of [NewDB] with [remaining] iterations to go, that
    is [remaining = MaxRetriesToCreateDB - i]; [db] and [err] are the
    loop's variables. After the loop come the closing statements of
    [NewDB]. *)
Fixpoint NewDB_loop (remaining : nat) (f : F) (path : string)
    (db : option P) (err : option Error) (w : World)
  : World * F * (option P * option Error) :=
  match remaining with
  | O =>
      match err with
      | Some e => (w, f, (None, Some e))
      | None => (w, f, (db, None))
      end
  | S remaining' =>
      let '(f1, (db1, err1)) := Factory_Create f path in
      let w1 := record (EvCreate path) w in
      match err1 with
      | None => (w1, f1, (db1, None))
      | Some _ =>
          let w2 := record (EvSleep SleepTimeBetweenCreateDBRetries) w1 in
          NewDB_loop remaining' f1 path db1 err1 w2
      end
  end.

(** [NewDB] creates a new database from database config *)
Definition NewDB (persisterFactory : option F) (path : string) (w : World)
  : World * option F * (option P * option Error) :=
  if IfNil Factory_IsInterfaceNil persisterFactory then
    (w, persisterFactory, (None, Some ErrNilPersisterFactory))
  else
    match persisterFactory with
    | Some f =>
        let '(w1, f1, r) := NewDB_loop MaxRetriesToCreateDB f path None None w in
        (w1, Some f1, r)
    | None =>                                   (* excluded by IfNil *)
        (w, persisterFactory, (None, Some ErrNilPersisterFactory))
    end.

(** [NewStorageUnitFromConf] creates a new storage unit from a storage
    unit config *)
Definition NewStorageUnitFromConf (cacheConf : CacheConfig.t)
    (dbConf : DBConfig.t) (persisterFactory : option F) (w : World)
  : World * option F * (option (Unit C P) * option Error) :=
  if to_int (CacheConfig.Capacity cacheConf) <? DBConfig.MaxBatchSize dbConf then
    (w, persisterFactory, (None, Some ErrCacheSizeIsLowerThanBatchSize))
  else
    let '(w1, (cache, err)) := NewCache cacheConf w in
    match err with
    | Some e => (w1, persisterFactory, (None, Some e))
    | None =>
        let '(w2, pf2, (db, err2)) := NewDB persisterFactory (DBConfig.FilePath dbConf) w1 in
        match err2 with
        | Some e => (w2, pf2, (None, Some e))
        | None => (w2, pf2, NewStorageUnit cache db)
        end
    end.

End Construction.

(** DB types that are currently supported *)
Definition LvlDB : string := "LvlDB".
Definition LvlDBSerial : string := "LvlDBSerial".
Definition MemoryDB : string := "MemoryDB".

End storageUnit.

(** ** Vocabulary for the properties

    Definitions that are not in the source: what a run of several calls
    answers, and how to read a history. *)

Module observe.
Import storageUnit.

Section Answers.

Context {C P : Type} `{!Cacher C, !Persister P}.

(** Calling [Get] for each key in turn, on the unit as the previous call
    left it: the unit at the end and every key with its answer. *)
Fixpoint Get_each (u : Unit C P) (keys : list ByteSlice)
  : outcome (Unit C P * list (ByteSlice * (ByteSlice * option Error))) :=
  match keys with
  | [] => Ret (u, [])
  | key :: keys' =>
      match Get u key with
      | Panic => Panic
      | Ret (u1, answer) =>
          match Get_each u1 keys' with
          | Panic => Panic
          | Ret (u2, answers) => Ret (u2, (key, answer) :: answers)
          end
      end
  end.

(** The pairs of the keys that were answered without an error. *)
Definition succeeded (answers : list (ByteSlice * (ByteSlice * option Error)))
  : list storageCore.KeyValuePair :=
  omap (fun a : ByteSlice * (ByteSlice * option Error) =>
          match a.2.2 with
          | None => Some {| storageCore.Key := a.1; storageCore.Value := a.2.1 |}
          | Some _ => None
          end) answers.

End Answers.

Section Attempts.

Context {F P : Type} `{!PersisterFactoryHandler F P}.

(** The factory after [n] calls of [Create] in a row. *)
Fixpoint factory_after (f : F) (path : string) (n : nat) : F :=
  match n with
  | O => f
  | S n' => factory_after (Factory_Create f path).1 path n'
  end.

(** What call number [i + 1] of [Create] returns. *)
Definition attempt (f : F) (path : string) (i : nat) : option P * option Error :=
  (Factory_Create (factory_after f path i) path).2.

Definition fails (r : option P * option Error) : Prop := is_Some r.2.

End Attempts.

Definition is_create (e : Event) : bool :=
  match e with EvCreate _ => true | _ => false end.

Definition is_sleep (e : Event) : bool :=
  match e with EvSleep _ => true | _ => false end.

Definition is_cache_built (e : Event) : bool :=
  match e with
  | EvNewLRUCache _ | EvNewSizeLRUCache _ _ | EvNewShardedCache _ _ => true
  | _ => false
  end.

Definition count (p : Event -> bool) (tr : list Event) : nat :=
  length (List.filter p tr).

(** The world after the events [tr] have happened in it. *)
Definition extend (w : World) (tr : list Event) : World :=
  {| cumulatedSizeInBytes := cumulatedSizeInBytes w;
     history := history w ++ tr |}.

(** [k] failed attempts: each a [Create] followed by the backoff sleep. *)
Fixpoint failed_attempts (path : string) (k : nat) : list Event :=
  match k with
  | O => []
  | S k' =>
      EvCreate path :: EvSleep SleepTimeBetweenCreateDBRetries
        :: failed_attempts path k'
  end.

End observe.

(** ** The persister factory of package [testscommon] *)

Module factorymock.
Import storageUnit.

(** The database packages [leveldb] and [memorydb] and the sentinel
    [common.ErrNotSupportedDBType], whose sources are not given:
    parameters of the model. Opening a database acts on the file system
    [FS], so the constructors of [leveldb] return its next state. *)
Class Databases (FS P : Type) := {
  leveldb_NewDB : FS -> string -> Z -> Z -> Z -> FS * (option P * option Error);
  leveldb_NewSerialDB : FS -> string -> Z -> Z -> Z -> FS * (option P * option Error);
  memorydb_New : P;
  ErrNotSupportedDBType : Error
}.

Record persisterFactoryHandlerMock := {
  dbType : string;
  batchDelaySeconds : Z;
  maxBatchSize : Z;
  maxOpenFiles : Z
}.

Section Mock.

Context {FS P : Type} `{!Databases FS P}.

(** [Create]; the handler is a non-nil [*persisterFactoryHandlerMock]
    together with the file system it works on. *)
Definition Create (f : persisterFactoryHandlerMock * FS) (path : string)
  : (persisterFactoryHandlerMock * FS) * (option P * option Error) :=
  let '(mock, fs) := f in
  if String.eqb (dbType mock) LvlDB then
    let '(fs1, r) := leveldb_NewDB fs path (batchDelaySeconds mock)
                       (maxBatchSize mock) (maxOpenFiles mock) in
    ((mock, fs1), r)
  else if String.eqb (dbType mock) LvlDBSerial then
    let '(fs1, r) := leveldb_NewSerialDB fs path (batchDelaySeconds mock)
                       (maxBatchSize mock) (maxOpenFiles mock) in
    ((mock, fs1), r)
  else if String.eqb (dbType mock) MemoryDB then
    ((mock, fs), (Some memorydb_New, None))
  else ((mock, fs), (None, Some ErrNotSupportedDBType)).

(** [IsInterfaceNil]: [mock == nil], false of a non-nil handler. *)
Definition IsInterfaceNil (f : persisterFactoryHandlerMock * FS) : bool := false.

#[global] Instance persisterFactoryHandlerMock_Handler
  : PersisterFactoryHandler (persisterFactoryHandlerMock * FS) P := {|
  Factory_Create := Create;
  Factory_IsInterfaceNil := IsInterfaceNil
|}.

End Mock.

End factorymock.

(** ** What a cacher may be assumed to do *)

Module laws.

Section Cacher.

Context (C : Type) `{!Cacher C}.

(** Find a key that was just put, with the value put; keep finding a
    key it has just found; miss a key that was just removed, and every
    key once it has been cleared. *)
Definition finds_what_was_put : Prop :=
  forall (c : C) k x n, exists c', Cacher_Get (Cacher_Put c k x n).1 k = (c', (x, true)).

Definition keeps_what_was_found : Prop :=
  forall (c : C) k c1 v,
    Cacher_Get c k = (c1, (v, true)) -> exists c2, Cacher_Get c1 k = (c2, (v, true)).

Definition has_what_was_put : Prop :=
  forall (c : C) k x n, (Cacher_Has (Cacher_Put c k x n).1 k).2 = true.


Definition misses_after_clear : Prop :=
  forall (c : C) k, (Cacher_Get (Cacher_Clear c) k).2.2 = false.

(** The cacher holds byte slices only, as witnessed by [holds_bytes]:
    every hit is a byte slice, and no method brings in anything else. *)
Definition bytes_only (holds_bytes : C -> Prop) : Prop :=
  (forall c key c' v ok,
     holds_bytes c -> Cacher_Get c key = (c', (v, ok)) ->
     holds_bytes c' /\ (ok = true -> exists b, v = VBytes b)) /\
  (forall c key b n, holds_bytes c -> holds_bytes (Cacher_Put c key (VBytes b) n).1) /\
  (forall c key, holds_bytes c -> holds_bytes (Cacher_Has c key).1) /\
  (forall c key, holds_bytes c -> holds_bytes (Cacher_Remove c key)) /\
  (forall c, holds_bytes (Cacher_Clear c)).

End Cacher.

End laws.

(** ** Sessions

    A caller's use of a unit over time: a list of calls, each made on the
    unit as the previous call left it. *)

Module session.
Import storageUnit.

Inductive Op : Type :=
| OpPut (key data : ByteSlice)
| OpGet (key : ByteSlice)
| OpGetBulkFromEpoch (keys : list ByteSlice) (epoch : Z)
| OpHas (key : ByteSlice)
| OpRemove (key : ByteSlice)
| OpClearCache
| OpClose
| OpDestroyUnit.

Section Run.

Context {C P : Type} `{!Cacher C, !Persister P}.

(** One call; what it returns is dropped, the unit it leaves is kept. *)
Definition step (u : Unit C P) (op : Op) : outcome (Unit C P) :=
  match op with
  | OpPut key data => Ret (Put u key data).1
  | OpGet key =>
      match Get u key with
      | Ret (u1, _) => Ret u1
      | Panic => Panic
      end
  | OpGetBulkFromEpoch keys epoch =>
      match GetBulkFromEpoch u keys epoch with
      | Ret (u1, _) => Ret u1
      | Panic => Panic
      end
  | OpHas key => Ret (Has u key).1
  | OpRemove key => Ret (Remove u key).1
  | OpClearCache => Ret (ClearCache u)
  | OpClose => Ret (Close u).1
  | OpDestroyUnit => Ret (DestroyUnit u).1
  end.

Fixpoint run (u : Unit C P) (ops : list Op) : outcome (Unit C P) :=
  match ops with
  | [] => Ret u
  | op :: ops' =>
      match step u op with
      | Ret u1 => run u1 ops'
      | Panic => Panic
      end
  end.

End Run.

End session.

(** ** Collaborators for running the model

    Small concrete collaborators, in the spirit of package [testscommon]:
    an unbounded map cacher, an in-memory persister whose writes can be
    made to fail, and a persister factory that fails a chosen number of
    calls before it succeeds. *)

Module testscommon.
Import storageUnit.

#[global] Instance byte_eq_decision : EqDecision byte := Byte.byte_eq_dec.
#[global] Instance byte_countable : Countable byte :=
  inj_countable Byte.to_N Byte.of_N Byte.of_to_N.

#[global] Instance amd64 : Arch :=
  {| intSize := 64; intSize_cases := or_intror eq_refl |}.

(** A cacher without bound: a map from the key's bytes to the value. *)
#[global] Instance MapCacher : Cacher (gmap (list byte) Any) := {|
  Cacher_Put c key value _ := (<[bytes_of key := value]> c, false);
  Cacher_Get c key :=
    (c, match c !! bytes_of key with
        | Some v => (v, true)
        | None => (VNil, false)
        end);
  Cacher_Has c key := (c, bool_decide (is_Some (c !! bytes_of key)));
  Cacher_Remove c key := delete (bytes_of key) c;
  Cacher_Clear _ := ∅;
  Cacher_IsInterfaceNil _ := false
|}.

#[global] Instance MapCacheEngines : CacheEngines (gmap (list byte) Any) := {|
  lrucache_NewCache size :=
    if size <=? 0 then (None, Some (ErrForeign 2)) else (Some ∅, None);
  lrucache_NewCacheWithSizeInBytes size sizeInBytes :=
    if size <=? 0 then (None, Some (ErrForeign 2)) else (Some ∅, None);
  fifocache_NewShardedCache size shards :=
    if (size <=? 0) || (shards <=? 0) then (None, Some (ErrForeign 2))
    else (Some ∅, None)
|}.

(** An in-memory persister. [serial] tells persisters apart; a [broken]
    persister refuses every write. *)
Record MemPersister := {
  serial : nat;
  store : gmap (list byte) Any;
  broken : bool
}.

Definition ErrKeyNotFound : Error := ErrForeign 0.
Definition ErrWriteFailed : Error := ErrForeign 1.

Definition with_store (p : MemPersister) (s : gmap (list byte) Any) : MemPersister :=
  {| serial := serial p; store := s; broken := broken p |}.

#[global] Instance MemPersister_Persister : Persister MemPersister := {|
  Persister_Put p key data :=
    if broken p then (p, Some ErrWriteFailed)
    else (with_store p (<[bytes_of key := VBytes data]> (store p)), None);
  Persister_Get p key :=
    match store p !! bytes_of key with
    | Some v => (p, (v, None))
    | None => (p, (VNil, Some ErrKeyNotFound))
    end;
  Persister_Has p key :=
    match store p !! bytes_of key with
    | Some _ => (p, None)
    | None => (p, Some ErrKeyNotFound)
    end;
  Persister_Remove p key :=
    if broken p then (p, Some ErrWriteFailed)
    else (with_store p (delete (bytes_of key) (store p)), None);
  Persister_Close p := (p, None);
  Persister_Destroy p := (with_store p ∅, None);
  Persister_IsInterfaceNil _ := false
|}.

(** A factory that has been called [calls] times and fails its first
    [failing] calls; call number [n] fails with [ErrForeign n] or yields
    the empty persister of serial [n]. *)
Record FlakyFactory := {
  calls : nat;
  failing : nat
}.

#[global] Instance FlakyFactory_Handler
  : PersisterFactoryHandler FlakyFactory MemPersister := {|
  Factory_Create f path :=
    let n := S (calls f) in
    ({| calls := n; failing := failing f |},
     if (calls f <? failing f)%nat then (None, Some (ErrForeign n))
     else (Some {| serial := n; store := ∅; broken := false |}, None));
  Factory_IsInterfaceNil _ := false
|}.

Definition key_a : ByteSlice := Some ["a"%byte].
Definition key_b : ByteSlice := Some ["b"%byte].
Definition val_1 : ByteSlice := Some [x01%byte].

Definition empty_world : World := {| cumulatedSizeInBytes := 0; history := [] |}.

(** A unit with an empty cache over a persister that refuses writes. *)
Definition unit_broken : Unit (gmap (list byte) Any) MemPersister :=
  {| persister := {| serial := 1; store := ∅; broken := true |};
     cacher := ∅ |}.

(** A unit whose persister holds [val_1] for [key_a] and a value that
    is not a byte slice for [key_b]; its cache is empty. *)
Definition unit_cold : Unit (gmap (list byte) Any) MemPersister :=
  {| persister := {| serial := 1;
                     store := {[ bytes_of key_a := VBytes val_1;
                                 bytes_of key_b := VOther 7 ]};
                     broken := false |};
     cacher := ∅ |}.

(** The same unit with [val_1] for [key_a] in its cache. *)
Definition unit_warm : Unit (gmap (list byte) Any) MemPersister :=
  {| persister := persister unit_cold;
     cacher := {[ bytes_of key_a := VBytes val_1 ]} |}.

Definition key_c : ByteSlice := Some ["c"%byte].

(** The map cacher holds byte slices only when all its values are. *)
Definition all_bytes (c : gmap (list byte) Any) : Prop :=
  map_Forall (fun (_ : list byte) (v : Any) => exists b, v = VBytes b) c.

Definition factory_9 : FlakyFactory := {| calls := 0; failing := 9 |}.

Definition factory_10 : FlakyFactory := {| calls := 0; failing := 10 |}.

Definition cacheConf_50 : CacheConfig.t :=
  {| CacheConfig.Name := "cache"; CacheConfig.Type_ := LRUCache;
     CacheConfig.SizeInBytes := 0; CacheConfig.SizeInBytesPerSender := 0;
     CacheConfig.Capacity := 50; CacheConfig.SizePerSender := 0;
     CacheConfig.Shards := 0 |}.

Definition dbConf (maxBatchSize : Z) : DBConfig.t :=
  {| DBConfig.FilePath := "db"; DBConfig.Type_ := "MemoryDB";
     DBConfig.BatchDelaySeconds := 1; DBConfig.MaxBatchSize := maxBatchSize;
     DBConfig.MaxOpenFiles := 10 |}.

Definition cacheConf (type : string) (sizeInBytes : Z) : CacheConfig.t :=
  {| CacheConfig.Name := "cache"; CacheConfig.Type_ := type;
     CacheConfig.SizeInBytes := sizeInBytes; CacheConfig.SizeInBytesPerSender := 0;
     CacheConfig.Capacity := 50; CacheConfig.SizePerSender := 0;
     CacheConfig.Shards := 4 |}.

(** A target with an [int] of 32 bits. *)
Definition arm32 : Arch :=
  {| intSize := 32; intSize_cases := or_introl eq_refl |}.

(** Databases for the mock factory: no file system to speak of; opening
    a [leveldb] database fails. *)
#[global] Instance NoDisk : factorymock.Databases () MemPersister := {|
  factorymock.leveldb_NewDB fs path _ _ _ := (fs, (None, Some (ErrForeign 4)));
  factorymock.leveldb_NewSerialDB fs path _ _ _ := (fs, (None, Some (ErrForeign 4)));
  factorymock.memorydb_New := {| serial := 0; store := ∅; broken := false |};
  factorymock.ErrNotSupportedDBType := ErrForeign 3
|}.

(** A capacity that does not fit an [int] of 32 bits. *)
Definition cacheConf_wide : CacheConfig.t :=
  {| CacheConfig.Name := "cache"; CacheConfig.Type_ := LRUCache;
     CacheConfig.SizeInBytes := 0; CacheConfig.SizeInBytesPerSender := 0;
     CacheConfig.Capacity := 2147483648; CacheConfig.SizePerSender := 0;
     CacheConfig.Shards := 0 |}.

(** A session that uses every call. *)
Definition session_all : list session.Op :=
  [ session.OpPut key_c val_1; session.OpGet key_a; session.OpGet key_b;
    session.OpGetBulkFromEpoch [key_a; key_b; key_c] 0; session.OpHas key_c;
    session.OpRemove key_a; session.OpClearCache; session.OpGet key_a;
    session.OpClose; session.OpDestroyUnit ].

Definition mock (dbType : string) : factorymock.persisterFactoryHandlerMock :=
  {| factorymock.dbType := dbType; factorymock.batchDelaySeconds := 1;
     factorymock.maxBatchSize := 10; factorymock.maxOpenFiles := 10 |}.

End testscommon.

(** * Properties *)

Section UnitProperties.
Import storageUnit observe.

Context {C P : Type} `{!Cacher C, !Persister P}.

Implicit Types (u : Unit C P) (key data : ByteSlice).

(** C8: every epoch-qualified operation is the unqualified operation,
    whatever the epoch: [PutInEpoch] is [Put], [GetFromEpoch] and
    [SearchFirst] are [Get], [RemoveFromCurrentEpoch] is [Remove]; and
    [GetOldestEpoch] always answers with the oldest-epoch-not-available
    error. *)
Theorem epoch_operations_are_aliases :
  (forall u key data epoch, PutInEpoch u key data epoch = Put u key data) /\
  (forall u key epoch, GetFromEpoch u key epoch = Get u key) /\
  (forall u key, SearchFirst u key = Get u key) /\
  (forall u key, RemoveFromCurrentEpoch u key = Remove u key) /\
  (forall u, GetOldestEpoch u = (0, Some ErrOldestEpochNotAvailable)).
Proof. repeat split. Qed.

(** C1: when the persister's [Put] fails, [Put] removes the cache entry
    it has just written and returns the persister's error, so a later
    [Get] of the key is not answered from the cache (whatever it answers
    comes from the persister); and [Put] returns exactly what the
    persister's [Put] returned, so success means the durable write
    succeeded. The cacher is assumed to miss a key that has just been
    removed. *)
Theorem Put_rolls_back_cache_on_persister_error u key data p1 err :
  Persister_Put (persister u) key data = (p1, err) ->
  (forall c, (Cacher_Get (Cacher_Remove c key) key).2.2 = false) ->
  let c1 := (Cacher_Put (cacher u) key (VBytes data) (len data)).1 in
  (Put u key data).2 = err /\
  persister (Put u key data).1 = p1 /\
  (forall e, err = Some e ->
     Put u key data =
       ({| persister := p1; cacher := Cacher_Remove c1 key |}, Some e) /\
     (forall u2 b, Get (Put u key data).1 key = Ret (u2, (b, None)) ->
        exists p2, Persister_Get p1 key = (p2, (VBytes b, None)))).
Proof.
  intros Hput Hmiss c1. subst c1. unfold Put.
  destruct (Cacher_Put (cacher u) key (VBytes data) (len data)) as [c1 evicted].
  rewrite Hput. cbn [fst].
  destruct err as [e0|]; cbn [fst snd persister];
    (split; [reflexivity|split; [reflexivity|]]).
  - intros e [= <-]. split; [reflexivity|].
    intros u2 b. unfold Get. cbn [cacher persister].
    specialize (Hmiss c1).
    destruct (Cacher_Get (Cacher_Remove c1 key) key) as [c2 [v ok]].
    cbn in Hmiss. subst ok. cbn [negb].
    destruct (Persister_Get p1 key) as [p2 [v1 [e1|]]]; [discriminate|].
    destruct v1 as [|b1|tag]; cbn; try discriminate.
    destruct (Cacher_Put c2 key (VBytes b1) (len b1)) as [c3 ?].
    intros [= _ <-]. eauto.
  - intros e [=].
Qed.

(** C9: on a cache miss, a value that the persister returns without an
    error and that is not a byte slice makes [Get] return (it does not
    panic) a nil value and an error of its own, made by [fmt.Errorf] with
    the base64 form of the key in its message; the cacher is left as the
    lookup left it, nothing is put into it. *)
Theorem Get_reports_non_bytes_from_persister u key c1 v p1 v1 :
  Cacher_Get (cacher u) key = (c1, (v, false)) ->
  Persister_Get (persister u) key = (p1, (v1, None)) ->
  (forall b, v1 <> VBytes b) ->
  Get u key =
    Ret ({| persister := p1; cacher := c1 |},
         (None, Some (Errorf ("key: " +:+ Base64.EncodeToString key
                              +:+ " is not a byte slice")))).
Proof.
  intros Hc Hp Hv. unfold Get. rewrite Hc, Hp. cbn [negb].
  destruct v1 as [|b|tag]; [reflexivity| |reflexivity].
  exfalso. exact (Hv b eq_refl).
Qed.

(** C2: [Get] returns the byte slice the cache holds for the key; on a
    miss it reads the persister, returns the persister's error with a nil
    value, or else puts the value read into the cache and returns it, so
    that the next [Get] of the key is answered from the cache, whatever
    the persister is. The last part assumes of the cacher that a key just
    put is found with the value put. *)
Theorem Get_reads_through_and_fills_cache u key c1 v ok :
  Cacher_Get (cacher u) key = (c1, (v, ok)) ->
  (forall b, ok = true -> v = VBytes b ->
     Get u key = Ret ({| persister := persister u; cacher := c1 |}, (b, None))) /\
  (forall p1 v1 err, ok = false ->
     Persister_Get (persister u) key = (p1, (v1, err)) ->
     (forall e, err = Some e ->
        Get u key = Ret ({| persister := p1; cacher := c1 |}, (None, Some e))) /\
     (forall b, err = None -> v1 = VBytes b ->
        let c2 := (Cacher_Put c1 key (VBytes b) (len b)).1 in
        Get u key = Ret ({| persister := p1; cacher := c2 |}, (b, None)) /\
        ((forall c k x n, exists c',
             Cacher_Get (Cacher_Put c k x n).1 k = (c', (x, true))) ->
         forall p, exists c3,
           Get {| persister := p; cacher := c2 |} key =
             Ret ({| persister := p; cacher := c3 |}, (b, None))))).
Proof.
  intros Hc. split.
  - intros b -> ->. unfold Get. rewrite Hc. reflexivity.
  - intros p1 v1 err -> Hp. split.
    + intros e ->. unfold Get. rewrite Hc, Hp. reflexivity.
    + intros b -> -> c2. subst c2. split.
      * unfold Get. rewrite Hc, Hp. cbn.
        destruct (Cacher_Put c1 key (VBytes b) (len b)); reflexivity.
      * intros Hfound p.
        destruct (Hfound c1 key (VBytes b) (len b)) as [c3 Hhit].
        exists c3. unfold Get. cbn [cacher persister]. rewrite Hhit.
        reflexivity.
Qed.

(** The loop of [GetBulkFromEpoch] appends to [results] the pairs of
    the keys that [Get] answers without an error, and panics exactly when
    one of the calls of [Get] does. *)
Lemma GetBulkFromEpoch_loop_answers keys : forall u results,
  GetBulkFromEpoch_loop u keys results =
    match Get_each u keys with
    | Panic => Panic
    | Ret (u', answers) => Ret (u', results ++ succeeded answers)
    end.
Proof.
  induction keys as [|key keys IH]; intros u results; cbn [GetBulkFromEpoch_loop Get_each].
  - unfold succeeded. cbn. rewrite app_nil_r. reflexivity.
  - destruct (Get u key) as [[u1 [value [e|]]]|]; [| |reflexivity].
    + rewrite IH. destruct (Get_each u1 keys) as [[u2 answers]|]; reflexivity.
    + rewrite IH. destruct (Get_each u1 keys) as [[u2 answers]|]; [|reflexivity].
      unfold succeeded. cbn. rewrite <- app_assoc. reflexivity.
Qed.

Lemma Get_each_keys keys : forall u u' answers,
  Get_each u keys = Ret (u', answers) -> answers.*1 = keys.
Proof.
  induction keys as [|key keys IH]; intros u u' answers; cbn [Get_each].
  - intros [= _ <-]. reflexivity.
  - destruct (Get u key) as [[u1 answer]|]; [|discriminate].
    destruct (Get_each u1 keys) as [[u2 rest]|] eqn:Hrest; [|discriminate].
    intros [= _ <-]. cbn. f_equal. eauto.
Qed.

Section BytesOnly.

(** A cacher that holds byte slices only: every hit is a byte slice,
    and lookups and puts of byte slices keep it so. *)
Variable holds_bytes : C -> Prop.

Hypothesis holds_bytes_Get : forall c key c' v ok,
  holds_bytes c -> Cacher_Get c key = (c', (v, ok)) ->
  holds_bytes c' /\ (ok = true -> exists b, v = VBytes b).

Hypothesis holds_bytes_Put : forall c key b n,
  holds_bytes c -> holds_bytes (Cacher_Put c key (VBytes b) n).1.

(** [Put] and [Get] keep such a cacher, and [Get] does not panic. *)
Lemma Put_holds_bytes u key data :
  (forall c k, holds_bytes c -> holds_bytes (Cacher_Remove c k)) ->
  holds_bytes (cacher u) -> holds_bytes (cacher (Put u key data).1).
Proof.
  intros Hrem Hu. unfold Put.
  pose proof (holds_bytes_Put (cacher u) key data (len data) Hu) as Hc.
  destruct (Cacher_Put (cacher u) key (VBytes data) (len data)) as [c1 ?].
  destruct (Persister_Put (persister u) key data) as [p1 [e|]]; cbn in *; auto.
Qed.

Lemma Get_holds_bytes u key :
  holds_bytes (cacher u) ->
  exists u' answer, Get u key = Ret (u', answer) /\ holds_bytes (cacher u').
Proof.
  intros Hu. unfold Get.
  destruct (Cacher_Get (cacher u) key) as [c1 [v ok]] eqn:Hc.
  destruct (holds_bytes_Get _ _ _ _ _ Hu Hc) as [Hc1 Hv].
  destruct ok; cbn [negb].
  - destruct (Hv eq_refl) as [b ->]. cbn. eauto.
  - destruct (Persister_Get (persister u) key) as [p1 [v1 [e|]]]; [eauto|].
    destruct v1 as [|b|tag]; cbn; eauto.
    pose proof (holds_bytes_Put c1 key b (len b) Hc1) as Hc2.
    destruct (Cacher_Put c1 key (VBytes b) (len b)) as [c2 ?]. eauto.
Qed.

Lemma Get_each_holds_bytes keys : forall u,
  holds_bytes (cacher u) ->
  exists u' answers, Get_each u keys = Ret (u', answers) /\ holds_bytes (cacher u').
Proof.
  induction keys as [|key keys IH]; intros u Hu; cbn [Get_each]; [eauto|].
  destruct (Get_holds_bytes u key Hu) as (u1 & answer & -> & Hu1).
  destruct (IH u1 Hu1) as (u2 & answers & -> & Hu2). eauto.
Qed.

(** C10: on a unit whose cacher holds byte slices only,
    [GetBulkFromEpoch] returns, for every list of keys and every epoch,
    a nil error; every key is asked once, in the order of the list, and
    the result holds, in that order, the pair of each key that [Get]
    answered without an error and nothing for the others. *)
Theorem GetBulkFromEpoch_skips_failed_keys u keys epoch :
  holds_bytes (cacher u) ->
  exists u' answers,
    Get_each u keys = Ret (u', answers) /\
    answers.*1 = keys /\
    GetBulkFromEpoch u keys epoch = Ret (u', (succeeded answers, None)).
Proof.
  intros Hu.
  destruct (Get_each_holds_bytes keys u Hu) as (u' & answers & Heach & _).
  exists u', answers. split; [exact Heach|]. split; [eauto using Get_each_keys|].
  unfold GetBulkFromEpoch. rewrite GetBulkFromEpoch_loop_answers, Heach.
  reflexivity.
Qed.

End BytesOnly.

End UnitProperties.

Section ConstructionProperties.
Import storageUnit observe.

Context `{Arch} {C P F : Type}
  `{!Cacher C, !Persister P, !CacheEngines C, !PersisterFactoryHandler F P}.

Lemma record_extend e w : record e w = extend w [e].
Proof. reflexivity. Qed.

Lemma extend_extend w tr1 tr2 : extend (extend w tr1) tr2 = extend w (tr1 ++ tr2).
Proof. unfold extend. cbn. rewrite app_assoc. reflexivity. Qed.

Lemma extend_nil w : extend w [] = w.
Proof. destruct w. unfold extend. cbn. rewrite app_nil_r. reflexivity. Qed.

Lemma count_app p tr1 tr2 : count p (tr1 ++ tr2) = (count p tr1 + count p tr2)%nat.
Proof. unfold count. rewrite List.filter_app, length_app. reflexivity. Qed.

Lemma count_failed_attempts path k :
  count is_create (failed_attempts path k) = k /\
  count is_sleep (failed_attempts path k) = k.
Proof.
  induction k as [|k [IHc IHs]]; [split; reflexivity|].
  unfold count in *. cbn. rewrite IHc, IHs. split; reflexivity.
Qed.

Lemma attempt_S (f : F) path i :
  attempt f path (S i) = attempt (Factory_Create f path).1 path i.
Proof. reflexivity. Qed.

(** The loop stops at the first call of [Create] that succeeds. *)
Lemma NewDB_loop_first_success path n : forall j (f : F) db err w pdb,
  (j < n)%nat ->
  (forall i, (i < j)%nat -> fails (attempt f path i)) ->
  attempt f path j = (pdb, None) ->
  NewDB_loop n f path db err w =
    (extend w (failed_attempts path j ++ [EvCreate path]),
     factory_after f path (S j), (pdb, None)).
Proof.
  induction n as [|n IH]; intros j f db err w pdb Hj Hfail Hok; [lia|].
  cbn [NewDB_loop]. destruct j as [|j].
  - unfold attempt in Hok. cbn in Hok. cbn [factory_after].
    destruct (Factory_Create f path) as [f1 [db1 err1]]. cbn in Hok.
    injection Hok as -> ->. reflexivity.
  - pose proof (Hfail O ltac:(lia)) as H0.
    unfold fails, attempt in H0. cbn [factory_after] in H0.
    rewrite attempt_S in Hok.
    assert (Hfail' : forall i, (i < j)%nat ->
              fails (attempt (Factory_Create f path).1 path i)).
    { intros i Hi. rewrite <- attempt_S. apply Hfail. lia. }
    change (factory_after f path (S (S j)))
      with (factory_after (Factory_Create f path).1 path (S j)).
    destruct (Factory_Create f path) as [f1 [db1 err1]]. cbn in *.
    destruct H0 as [e ->].
    rewrite (IH j f1 db1 (Some e) _ pdb ltac:(lia) Hfail' Hok).
    rewrite !record_extend, !extend_extend. reflexivity.
Qed.

(** When every call fails, the loop runs to its end and the error of
    the last call is returned. *)
Lemma NewDB_loop_all_fail path n : forall (f : F) db err w,
  (forall i, (i < n)%nat -> fails (attempt f path i)) ->
  (n = O -> is_Some err) ->
  exists e,
    match n with O => err | S m => (attempt f path m).2 end = Some e /\
    NewDB_loop n f path db err w =
      (extend w (failed_attempts path n), factory_after f path n, (None, Some e)).
Proof.
  induction n as [|n IH]; intros f db err w Hfail Herr.
  - destruct (Herr eq_refl) as [e ->]. exists e. cbn. rewrite extend_nil. auto.
  - pose proof (Hfail O ltac:(lia)) as H0.
    unfold fails, attempt in H0. cbn [factory_after] in H0.
    assert (Hfail' : forall i, (i < n)%nat ->
              fails (attempt (Factory_Create f path).1 path i)).
    { intros i Hi. rewrite <- attempt_S. apply Hfail. lia. }
    assert (Hlast : forall m, n = S m ->
              (attempt f path n).2 = (attempt (Factory_Create f path).1 path m).2).
    { intros m ->. rewrite attempt_S. reflexivity. }
    assert (Hfirst : n = O -> (attempt f path n).2 = (Factory_Create f path).2.2).
    { intros ->. reflexivity. }
    cbn [NewDB_loop factory_after].
    destruct (Factory_Create f path) as [f1 [db1 err1]]. cbn in *.
    destruct H0 as [e1 ->].
    destruct (IH f1 db1 (Some e1) (record (EvSleep SleepTimeBetweenCreateDBRetries)
                                     (record (EvCreate path) w)) Hfail')
      as (e & He & ->); [eauto|].
    exists e. split.
    + destruct n as [|m]; [rewrite Hfirst by reflexivity; exact He|].
      rewrite (Hlast m eq_refl). exact He.
    + rewrite !record_extend, !extend_extend. reflexivity.
Qed.

(** Among the first [n] calls either all fail or there is a first one
    that succeeds. *)
Lemma first_success_or_all_fail (f : F) path n :
  (forall i, (i < n)%nat -> fails (attempt f path i)) \/
  (exists j pdb, (j < n)%nat /\
     (forall i, (i < j)%nat -> fails (attempt f path i)) /\
     attempt f path j = (pdb, None)).
Proof.
  induction n as [|n [IH|IH]].
  - left. intros i Hi. lia.
  - destruct (attempt f path n) as [pdb [e|]] eqn:Hn.
    + left. intros i Hi. destruct (decide (i = n)) as [->|].
      * unfold fails. rewrite Hn. eauto.
      * apply IH. lia.
    + right. exists n, pdb. eauto.
  - right. destruct IH as (j & pdb & Hj & Hfail & Hok).
    exists j, pdb. split; [lia|]. eauto.
Qed.

(** C4: [NewDB] calls [Create] at most ten times. If call number
    [j + 1], one of the first ten, is the first to succeed, [NewDB]
    returns the persister of that call and has made exactly those
    [j + 1] calls; if the first ten calls all fail, it returns the error
    of the tenth call. *)
Theorem NewDB_retries_at_most_ten_times (f : F) path w :
  Factory_IsInterfaceNil f = false ->
  (exists tr, (NewDB (Some f) path w).1.1 = extend w tr /\
              (count is_create tr <= 10)%nat) /\
  (forall j pdb, (j < 10)%nat ->
     (forall i, (i < j)%nat -> fails (attempt f path i)) ->
     attempt f path j = (pdb, None) ->
     NewDB (Some f) path w =
       (extend w (failed_attempts path j ++ [EvCreate path]),
        Some (factory_after f path (S j)), (pdb, None)) /\
     count is_create (failed_attempts path j ++ [EvCreate path]) = S j) /\
  ((forall i, (i < 10)%nat -> fails (attempt f path i)) ->
     exists e, (attempt f path 9).2 = Some e /\
       NewDB (Some f) path w =
         (extend w (failed_attempts path 10),
          Some (factory_after f path 10), (None, Some e)) /\
       count is_create (failed_attempts path 10) = 10%nat).
Proof.
  intros Hnil.
  assert (Hsucc : forall j pdb, (j < 10)%nat ->
     (forall i, (i < j)%nat -> fails (attempt f path i)) ->
     attempt f path j = (pdb, None) ->
     NewDB (Some f) path w =
       (extend w (failed_attempts path j ++ [EvCreate path]),
        Some (factory_after f path (S j)), (pdb, None))).
  { intros j pdb Hj Hfail Hok. unfold NewDB. cbn [IfNil]. rewrite Hnil.
    unfold MaxRetriesToCreateDB.
    rewrite (NewDB_loop_first_success path 10 j f None None w pdb Hj Hfail Hok).
    reflexivity. }
  assert (Hall : (forall i, (i < 10)%nat -> fails (attempt f path i)) ->
     exists e, (attempt f path 9).2 = Some e /\
       NewDB (Some f) path w =
         (extend w (failed_attempts path 10),
          Some (factory_after f path 10), (None, Some e))).
  { intros Hfail. unfold NewDB. cbn [IfNil]. rewrite Hnil.
    unfold MaxRetriesToCreateDB.
    destruct (NewDB_loop_all_fail path 10 f None None w Hfail) as (e & He & ->);
      [discriminate|].
    exists e. split; [exact He|reflexivity]. }
  assert (Hcount : forall j,
     count is_create (failed_attempts path j ++ [EvCreate path]) = S j).
  { intros j. rewrite count_app, (proj1 (count_failed_attempts path j)).
    unfold count. cbn. lia. }
  split; [|split].
  - destruct (first_success_or_all_fail f path 10)
      as [Hfail|(j & pdb & Hj & Hfail & Hok)].
    + destruct (Hall Hfail) as (e & _ & ->).
      exists (failed_attempts path 10). split; [reflexivity|].
      rewrite (proj1 (count_failed_attempts path 10)). lia.
    + rewrite (Hsucc j pdb Hj Hfail Hok).
      exists (failed_attempts path j ++ [EvCreate path]). split; [reflexivity|].
      rewrite Hcount. lia.
  - intros j pdb Hj Hfail Hok. split; [eauto|apply Hcount].
  - intros Hfail. destruct (Hall Hfail) as (e & He & Hrun).
    exists e. split; [exact He|]. split; [exact Hrun|].
    apply (count_failed_attempts path 10).
Qed.

(** The sleeps of [NewDB]: as many as the failed calls. A first success
    at call number [j + 1] comes after [j] sleeps; ten failed calls come
    with ten sleeps, the last of them after the tenth call. *)
Lemma last_failed_attempts path k :
  last (failed_attempts path (S k)) = Some (EvSleep SleepTimeBetweenCreateDBRetries).
Proof.
  induction k as [|k IH]; [reflexivity|].
  change (failed_attempts path (S (S k)))
    with ([EvCreate path; EvSleep SleepTimeBetweenCreateDBRetries]
            ++ failed_attempts path (S k)).
  rewrite last_app, IH. reflexivity.
Qed.

(** X18: [NewDB] sleeps once after every failed call of [Create]: a first
    success at call number [j + 1] comes after exactly [j] sleeps, and ten
    failed calls come with ten sleeps, the last one after the tenth call. *)
Lemma NewDB_sleeps (f : F) path w :
  Factory_IsInterfaceNil f = false ->
  (forall j pdb, (j < 10)%nat ->
     (forall i, (i < j)%nat -> fails (attempt f path i)) ->
     attempt f path j = (pdb, None) ->
     exists tr, (NewDB (Some f) path w).1.1 = extend w tr /\
                count is_sleep tr = j) /\
  ((forall i, (i < 10)%nat -> fails (attempt f path i)) ->
     exists tr, (NewDB (Some f) path w).1.1 = extend w tr /\
                count is_sleep tr = 10%nat /\
                last tr = Some (EvSleep SleepTimeBetweenCreateDBRetries)).
Proof.
  intros Hnil. unfold NewDB. cbn [IfNil]. rewrite Hnil.
  unfold MaxRetriesToCreateDB. split.
  - intros j pdb Hj Hfail Hok.
    rewrite (NewDB_loop_first_success path 10 j f None None w pdb Hj Hfail Hok).
    eexists. split; [reflexivity|].
    rewrite count_app, (proj2 (count_failed_attempts path j)).
    unfold count. cbn. lia.
  - intros Hfail.
    destruct (NewDB_loop_all_fail path 10 f None None w Hfail) as (e & _ & ->);
      [discriminate|].
    eexists. split; [reflexivity|]. split.
    + apply (count_failed_attempts path 10).
    + apply last_failed_attempts.
Qed.

(** C6: with a nil persister factory (the nil interface, or a handler
    that says of itself that it is nil) [NewDB] returns the
    nil-persister-factory error at once: the world is as it was, so no
    [Create] was attempted and no sleep was taken. *)
Theorem NewDB_nil_factory (persisterFactory : option F) path w :
  IfNil Factory_IsInterfaceNil persisterFactory = true ->
  NewDB persisterFactory path w =
    (w, persisterFactory, (None, Some ErrNilPersisterFactory)).
Proof. intros Hnil. unfold NewDB. rewrite Hnil. reflexivity. Qed.

(** A capacity below a batch size that fits an [int] is the same number
    as an [int], whatever the size of [int]. *)
Lemma to_int_Capacity capacity maxBatchSize :
  uint32_range capacity -> int_range maxBatchSize ->
  capacity < maxBatchSize -> to_int capacity = capacity.
Proof.
  unfold uint32_range, int_range, to_int, wrap_signed.
  intros Hc Hb Hlt.
  destruct intSize_cases as [E | E]; rewrite E in *; clear E.
  - change (2 ^ (32 - 1)) with 2147483648 in *.
    change (2 ^ 32) with 4294967296 in *.
    rewrite Z.mod_small by lia. lia.
  - change (2 ^ (64 - 1)) with 9223372036854775808 in *.
    change (2 ^ 64) with 18446744073709551616 in *.
    change (2 ^ 32) with 4294967296 in *.
    rewrite Z.mod_small by lia. lia.
Qed.

(** C3: when the batch size of the database configuration exceeds the
    capacity of the cache configuration, [NewStorageUnitFromConf] returns
    the batch-size-exceeds-capacity error and leaves the world and the
    factory as they were: no cache was built (and none announced to
    monitoring) and [Create] was not called. *)
Theorem NewStorageUnitFromConf_batch_size_exceeds_capacity
    cacheConf dbConf (persisterFactory : option F) w :
  CacheConfig.well_formed cacheConf ->
  DBConfig.well_formed dbConf ->
  CacheConfig.Capacity cacheConf < DBConfig.MaxBatchSize dbConf ->
  NewStorageUnitFromConf cacheConf dbConf persisterFactory w =
    (w, persisterFactory, (None, Some ErrCacheSizeIsLowerThanBatchSize)).
Proof.
  intros (_ & _ & Hcap & _) (_ & Hbatch & _) Hlt.
  unfold NewStorageUnitFromConf.
  rewrite (to_int_Capacity _ _ Hcap Hbatch Hlt).
  apply Z.ltb_lt in Hlt. rewrite Hlt. reflexivity.
Qed.

(** C7: [NewCache] announces the cache to monitoring and then refuses,
    without calling any cache constructor: a count-bounded LRU cache with
    a size in bytes other than zero; a size-bounded LRU cache with a size
    in bytes below 1024 (zero included), with an error that wraps the
    invalid-size error; and a cache type it does not know, with the
    not-supported-cache-type error. The announcement is the only event
    that such a call adds to the history. *)
Theorem NewCache_rejects_misconfiguration config w :
  let w0 := monitoring.MonitorNewCache
              (CacheConfig.Name config) (CacheConfig.SizeInBytes config) w in
  (CacheConfig.Type_ config = LRUCache ->
   CacheConfig.SizeInBytes config <> 0 ->
   NewCache config w = (w0, (None, Some ErrLRUCacheWithProvidedSize))) /\
  (CacheConfig.Type_ config = SizeLRUCache ->
   CacheConfig.SizeInBytes config < 1024 ->
   NewCache config w =
     (w0, (None, Some (ErrorfW ErrLRUCacheInvalidSize
                               (CacheConfig.SizeInBytes config) 1024)))) /\
  (CacheConfig.Type_ config <> LRUCache ->
   CacheConfig.Type_ config <> SizeLRUCache ->
   CacheConfig.Type_ config <> FIFOShardedCache ->
   NewCache config w = (w0, (None, Some ErrNotSupportedCacheType))) /\
  history w0 =
    history w ++ [EvMonitorNewCache (CacheConfig.Name config)
                    (CacheConfig.SizeInBytes config)].
Proof.
  intros w0. subst w0. unfold NewCache. repeat apply conj.
  - intros -> Hsize. cbn [String.eqb Ascii.eqb Bool.eqb LRUCache].
    apply Z.eqb_neq in Hsize. rewrite Hsize. reflexivity.
  - intros -> Hsize. cbn.
    apply Z.ltb_lt in Hsize. unfold minimumSizeForLRUCache. rewrite Hsize.
    reflexivity.
  - intros H1 H2 H3.
    apply String.eqb_neq in H1, H2, H3. rewrite H1, H2, H3. reflexivity.
  - reflexivity.
Qed.

End ConstructionProperties.

(** * The properties at work *)

Section Runs.
Import storageUnit observe testscommon.

Lemma MapCacher_miss_after_Remove (key : ByteSlice) (c : gmap (list byte) Any) :
  (Cacher_Get (Cacher_Remove c key) key).2.2 = false.
Proof. cbn. rewrite lookup_delete_eq. reflexivity. Qed.

Lemma MapCacher_hit_after_Put (c : gmap (list byte) Any)
    (k : ByteSlice) (x : Any) (n : Z) :
  exists c', Cacher_Get (Cacher_Put c k x n).1 k = (c', (x, true)).
Proof. cbn. rewrite lookup_insert_eq. eauto. Qed.

Lemma Put_rolls_back_cache_on_persister_error_witness :
  Persister_Put (persister unit_broken) key_a val_1
    = (persister unit_broken, Some ErrWriteFailed) /\
  (Put unit_broken key_a val_1).2 = Some ErrWriteFailed /\
  forall u2 b, Get (Put unit_broken key_a val_1).1 key_a = Ret (u2, (b, None)) ->
    exists p2, Persister_Get (persister unit_broken) key_a = (p2, (VBytes b, None)).
Proof.
  pose proof (Put_rolls_back_cache_on_persister_error
                unit_broken key_a val_1 (persister unit_broken)
                (Some ErrWriteFailed) eq_refl
                (MapCacher_miss_after_Remove key_a)) as (Herr & _ & Hget).
  split; [reflexivity|]. split; [exact Herr|].
  exact (proj2 (Hget ErrWriteFailed eq_refl)).
Defined.

Lemma Get_reads_through_and_fills_cache_witness :
  Get unit_warm key_a = Ret (unit_warm, (val_1, None)) /\
  Get unit_cold key_c = Ret (unit_cold, (None, Some ErrKeyNotFound)) /\
  Get unit_cold key_a = Ret (unit_warm, (val_1, None)) /\
  forall p : MemPersister, exists c3,
    Get {| persister := p; cacher := cacher unit_warm |} key_a =
      Ret ({| persister := p; cacher := c3 |}, (val_1, None)).
Proof.
  assert (Hwarm : Cacher_Get (cacher unit_warm) key_a
                  = (cacher unit_warm, (VBytes val_1, true))) by reflexivity.
  assert (Hcold_c : Cacher_Get (cacher unit_cold) key_c
                    = (cacher unit_cold, (VNil, false))) by reflexivity.
  assert (Hcold_a : Cacher_Get (cacher unit_cold) key_a
                    = (cacher unit_cold, (VNil, false))) by reflexivity.
  assert (Hstore_c : Persister_Get (persister unit_cold) key_c
                     = (persister unit_cold, (VNil, Some ErrKeyNotFound)))
    by reflexivity.
  assert (Hstore_a : Persister_Get (persister unit_cold) key_a
                     = (persister unit_cold, (VBytes val_1, None)))
    by reflexivity.
  split; [|split].
  - exact (proj1 (Get_reads_through_and_fills_cache unit_warm key_a _ _ _ Hwarm)
             val_1 eq_refl eq_refl).
  - destruct (proj2 (Get_reads_through_and_fills_cache unit_cold key_c _ _ _ Hcold_c)
                _ _ _ eq_refl Hstore_c) as [Herr _].
    exact (Herr ErrKeyNotFound eq_refl).
  - destruct (proj2 (Get_reads_through_and_fills_cache unit_cold key_a _ _ _ Hcold_a)
                _ _ _ eq_refl Hstore_a) as [_ Hfill].
    destruct (Hfill val_1 eq_refl eq_refl) as [Hget Hnext].
    split; [exact Hget|].
    exact (Hnext MapCacher_hit_after_Put).
Defined.

Lemma Get_reports_non_bytes_from_persister_witness :
  (forall b, VOther 7 <> VBytes b) /\
  Get unit_cold key_b =
    Ret (unit_cold, (None, Some (Errorf "key: Yg== is not a byte slice"))).
Proof.
  assert (Hshape : forall b, VOther 7 <> VBytes b) by (intros b; discriminate).
  split; [exact Hshape|].
  assert (Hmiss : Cacher_Get (cacher unit_cold) key_b
                  = (cacher unit_cold, (VNil, false))) by reflexivity.
  assert (Hread : Persister_Get (persister unit_cold) key_b
                  = (persister unit_cold, (VOther 7, None))) by reflexivity.
  exact (Get_reports_non_bytes_from_persister unit_cold key_b _ _ _ _
           Hmiss Hread Hshape).
Defined.

Lemma all_bytes_Get (c : gmap (list byte) Any) (key : ByteSlice) c' v ok :
  all_bytes c -> Cacher_Get c key = (c', (v, ok)) ->
  all_bytes c' /\ (ok = true -> exists b, v = VBytes b).
Proof.
  intros Hc.
  change (Cacher_Get c key)
    with (c, match c !! bytes_of key with
             | Some v => (v, true)
             | None => (VNil, false)
             end).
  destruct (c !! bytes_of key) as [v0|] eqn:Hlook.
  - intros Heq. inversion Heq; subst. split; [exact Hc|].
    intros _. exact (Hc _ _ Hlook).
  - intros Heq. inversion Heq; subst. split; [exact Hc|]. discriminate.
Qed.

Lemma all_bytes_Put (c : gmap (list byte) Any) (key b : ByteSlice) (n : Z) :
  all_bytes c -> all_bytes (Cacher_Put c key (VBytes b) n).1.
Proof. intros Hc. cbn. apply map_Forall_insert_2; eauto. Qed.

Lemma GetBulkFromEpoch_skips_failed_keys_witness :
  all_bytes (cacher unit_cold) /\
  exists u' answers,
    Get_each unit_cold [key_a; key_b; key_c; key_a] = Ret (u', answers) /\
    answers.*1 = [key_a; key_b; key_c; key_a] /\
    GetBulkFromEpoch unit_cold [key_a; key_b; key_c; key_a] 3 =
      Ret (u', (succeeded answers, None)).
Proof.
  assert (Hcold : all_bytes (cacher unit_cold)) by apply map_Forall_empty.
  split; [exact Hcold|].
  exact (GetBulkFromEpoch_skips_failed_keys all_bytes all_bytes_Get all_bytes_Put
           unit_cold [key_a; key_b; key_c; key_a] 3 Hcold).
Defined.

(** What that call returns: the pair of [key_a] twice; [key_b], whose
    value is not a byte slice, and [key_c], which is not stored, are
    left out. *)
Example GetBulkFromEpoch_run :
  GetBulkFromEpoch unit_cold [key_a; key_b; key_c; key_a] 3 =
    Ret (unit_warm,
         ([ {| storageCore.Key := key_a; storageCore.Value := val_1 |};
            {| storageCore.Key := key_a; storageCore.Value := val_1 |} ], None)).
Proof. reflexivity. Qed.

(** A cached value that is not a byte slice makes [Get] panic. *)
Example Get_panics_on_cached_non_bytes :
  Get {| persister := persister unit_cold;
         cacher := ({[ bytes_of key_a := VOther 7 ]} : gmap (list byte) Any) |} key_a = Panic.
Proof. reflexivity. Qed.

(** The flaky factory fails call number [i + 1] while the calls made so
    far number less than [failing]. *)
Lemma FlakyFactory_fails path i : forall f : FlakyFactory,
  (calls f + i < failing f)%nat -> fails (attempt (P := MemPersister) f path i).
Proof.
  induction i as [|i IH]; intros f Hlt.
  - unfold fails, attempt.
    change (Factory_Create (factory_after f path 0) path).2
      with (if (calls f <? failing f)%nat
            then (@None MemPersister, Some (ErrForeign (S (calls f))))
            else (Some {| serial := S (calls f); store := ∅; broken := false |},
                  None)).
    destruct (Nat.ltb_spec (calls f) (failing f)); [cbn; eauto|lia].
  - rewrite attempt_S. apply IH. cbn. lia.
Qed.

Lemma NewDB_retries_at_most_ten_times_witness :
  Factory_IsInterfaceNil (P := MemPersister) factory_9 = false /\
  NewDB (Some factory_9) "db" empty_world =
    (extend empty_world (failed_attempts "db" 9 ++ [EvCreate "db"]),
     Some {| calls := 10; failing := 9 |},
     (Some {| serial := 10; store := ∅; broken := false |}, None)) /\
  NewDB (Some factory_10) "db" empty_world =
    (extend empty_world (failed_attempts "db" 10),
     Some {| calls := 10; failing := 10 |},
     (@None MemPersister, Some (ErrForeign 10))).
Proof.
  assert (Hnil9 : Factory_IsInterfaceNil (P := MemPersister) factory_9 = false)
    by reflexivity.
  assert (Hnil10 : Factory_IsInterfaceNil (P := MemPersister) factory_10 = false)
    by reflexivity.
  split; [exact Hnil9|]. split.
  - destruct (NewDB_retries_at_most_ten_times factory_9 "db" empty_world Hnil9)
      as (_ & Hfirst & _).
    assert (Hfail : forall i, (i < 9)%nat ->
              fails (attempt (P := MemPersister) factory_9 "db" i)).
    { intros i Hi. apply FlakyFactory_fails. cbn. lia. }
    assert (Hok : attempt factory_9 "db" 9 =
              (Some {| serial := 10; store := ∅; broken := false |}, None))
      by reflexivity.
    exact (proj1 (Hfirst 9%nat _ ltac:(lia) Hfail Hok)).
  - destruct (NewDB_retries_at_most_ten_times factory_10 "db" empty_world Hnil10)
      as (_ & _ & Hall).
    destruct Hall as (e & He & Hrun & _).
    { intros i Hi. apply FlakyFactory_fails. cbn. lia. }
    injection He as <-. exact Hrun.
Defined.

(** C5: with a factory whose every call fails, [NewDB] makes ten calls
    of [Create] and takes the five-second sleep ten times, not nine: the
    history ends with the sleep that follows the tenth, final failed
    call, and only then is the error of that call returned. *)
Theorem NewDB_sleeps_after_the_final_failed_attempt :
  let run := NewDB (P := MemPersister) (Some factory_10) "db" empty_world in
  run.2 = (None, Some (ErrForeign 10)) /\
  history run.1.1 = failed_attempts "db" 10 /\
  count is_create (history run.1.1) = 10%nat /\
  count is_sleep (history run.1.1) = 10%nat /\
  last (history run.1.1) = Some (EvSleep (5 * Second)).
Proof. cbv zeta. repeat split. Qed.

Lemma NewDB_nil_factory_witness :
  IfNil (Factory_IsInterfaceNil (P := MemPersister)) (@None FlakyFactory) = true /\
  NewDB (@None FlakyFactory) "db" empty_world =
    (empty_world, None, (@None MemPersister, Some ErrNilPersisterFactory)).
Proof.
  assert (Hnil : IfNil (Factory_IsInterfaceNil (P := MemPersister))
                   (@None FlakyFactory) = true) by reflexivity.
  split; [exact Hnil|].
  exact (NewDB_nil_factory None "db" empty_world Hnil).
Defined.

Lemma cacheConf_50_well_formed : CacheConfig.well_formed cacheConf_50.
Proof. unfold CacheConfig.well_formed, uint64_range, uint32_range. cbn. lia. Qed.

Lemma dbConf_100_well_formed : DBConfig.well_formed (dbConf 100).
Proof. unfold DBConfig.well_formed, int_range. cbn. lia. Qed.

Lemma NewStorageUnitFromConf_batch_size_exceeds_capacity_witness :
  CacheConfig.well_formed cacheConf_50 /\
  DBConfig.well_formed (dbConf 100) /\
  NewStorageUnitFromConf (C := gmap (list byte) Any) cacheConf_50 (dbConf 100)
      (Some factory_9) empty_world =
    (empty_world, Some factory_9, (None, Some ErrCacheSizeIsLowerThanBatchSize)).
Proof.
  split; [exact cacheConf_50_well_formed|].
  split; [exact dbConf_100_well_formed|].
  apply NewStorageUnitFromConf_batch_size_exceeds_capacity.
  - exact cacheConf_50_well_formed.
  - exact dbConf_100_well_formed.
  - reflexivity.
Defined.

Lemma NewCache_rejects_misconfiguration_witness :
  NewCache (C := gmap (list byte) Any) (cacheConf LRUCache 1) empty_world =
    (monitoring.MonitorNewCache "cache" 1 empty_world,
     (None, Some ErrLRUCacheWithProvidedSize)) /\
  NewCache (C := gmap (list byte) Any) (cacheConf SizeLRUCache 0) empty_world =
    (monitoring.MonitorNewCache "cache" 0 empty_world,
     (None, Some (ErrorfW ErrLRUCacheInvalidSize 0 1024))) /\
  NewCache (C := gmap (list byte) Any) (cacheConf SizeLRUCache 1023) empty_world =
    (monitoring.MonitorNewCache "cache" 1023 empty_world,
     (None, Some (ErrorfW ErrLRUCacheInvalidSize 1023 1024))) /\
  NewCache (C := gmap (list byte) Any) (cacheConf "LFU" 0) empty_world =
    (monitoring.MonitorNewCache "cache" 0 empty_world,
     (None, Some ErrNotSupportedCacheType)).
Proof.
  repeat apply conj.
  - apply (NewCache_rejects_misconfiguration (C := gmap (list byte) Any)
             (cacheConf LRUCache 1) empty_world); [reflexivity|discriminate].
  - apply (NewCache_rejects_misconfiguration (C := gmap (list byte) Any)
             (cacheConf SizeLRUCache 0) empty_world); [reflexivity|reflexivity].
  - apply (NewCache_rejects_misconfiguration (C := gmap (list byte) Any)
             (cacheConf SizeLRUCache 1023) empty_world); [reflexivity|reflexivity].
  - apply (NewCache_rejects_misconfiguration (C := gmap (list byte) Any)
             (cacheConf "LFU" 0) empty_world); discriminate.
Defined.

(** A construction that goes through: capacity 50, batches of 10, and
    a factory that fails twice before it succeeds. *)
Example NewStorageUnitFromConf_run :
  NewStorageUnitFromConf (C := gmap (list byte) Any) cacheConf_50 (dbConf 10)
      (Some {| calls := 0; failing := 2 |}) empty_world =
    ({| cumulatedSizeInBytes := 0;
        history := [EvMonitorNewCache "cache" 0; EvNewLRUCache 50;
                    EvCreate "db"; EvSleep 5000000000;
                    EvCreate "db"; EvSleep 5000000000;
                    EvCreate "db"] |},
     Some {| calls := 3; failing := 2 |},
     (Some {| persister := {| serial := 3; store := ∅; broken := false |};
              cacher := ∅ |}, None)).
Proof. reflexivity. Qed.

Example base64_Man : Base64.EncodeToString (Some [x4d; x61; x6e]%byte) = "TWFu".
Proof. reflexivity. Qed.

Example base64_Ma : Base64.EncodeToString (Some [x4d; x61]%byte) = "TWE=".
Proof. reflexivity. Qed.

Example base64_M : Base64.EncodeToString (Some [x4d]%byte) = "TQ==".
Proof. reflexivity. Qed.

Example base64_nil : Base64.EncodeToString None = "".
Proof. reflexivity. Qed.

End Runs.


(** * Further properties of the unit *)

Section UnitComposition.
Import storageUnit observe laws.

Context {C P : Type} `{!Cacher C, !Persister P}.

Implicit Types (u : Unit C P) (key data : ByteSlice).

(** A [Get] whose lookup misses returns only what the persister holds. *)
Lemma Get_after_miss u key :
  (Cacher_Get (cacher u) key).2.2 = false ->
  forall u2 b, Get u key = Ret (u2, (b, None)) ->
    exists p2, Persister_Get (persister u) key = (p2, (VBytes b, None)).
Proof.
  intros Hmiss u2 b. unfold Get.
  destruct (Cacher_Get (cacher u) key) as [c1 [v ok]]. cbn in Hmiss. subst ok.
  cbn [negb].
  destruct (Persister_Get (persister u) key) as [p2 [v1 [e1|]]]; [discriminate|].
  destruct v1 as [|b1|tag]; cbn; try discriminate.
  destruct (Cacher_Put c1 key (VBytes b1) (len b1)) as [c2 ?].
  intros [= _ <-]. eauto.
Qed.

(** X1: after a [Put] that succeeded, [Get] of the key returns the data
    put, from the cache: the persister is left as [Put] left it. *)
Theorem Put_then_Get u key data u1 :
  finds_what_was_put C ->
  Put u key data = (u1, None) ->
  exists c2,
    Get u1 key = Ret ({| persister := persister u1; cacher := c2 |}, (data, None)).
Proof.
  intros Hfound. unfold Put.
  destruct (Cacher_Put (cacher u) key (VBytes data) (len data)) as [c1 ev] eqn:Hput.
  destruct (Persister_Put (persister u) key data) as [p1 [e|]]; [discriminate|].
  intros [= <-]. cbn [persister].
  destruct (Hfound (cacher u) key (VBytes data) (len data)) as [c2 Hhit].
  rewrite Hput in Hhit. cbn [fst] in Hhit.
  exists c2. unfold Get. cbn [cacher persister]. rewrite Hhit. reflexivity.
Qed.

(** X2: after a [Put] that succeeded, [Has] of the key returns no error
    and does not ask the persister. *)
Theorem Put_then_Has u key data u1 :
  has_what_was_put C ->
  Put u key data = (u1, None) ->
  (Has u1 key).2 = None /\ persister (Has u1 key).1 = persister u1.
Proof.
  intros Hhas. unfold Put.
  destruct (Cacher_Put (cacher u) key (VBytes data) (len data)) as [c1 ev] eqn:Hput.
  destruct (Persister_Put (persister u) key data) as [p1 [e|]]; [discriminate|].
  intros [= <-].
  pose proof (Hhas (cacher u) key (VBytes data) (len data)) as Hc.
  rewrite Hput in Hc. cbn [fst] in Hc.
  unfold Has. cbn [cacher persister].
  destruct (Cacher_Has c1 key) as [c2 has]. cbn in Hc. subst has.
  split; reflexivity.
Qed.


(** X4: a [Get] that returned a value is repeatable: the next [Get] of
    the key returns the same value, from the cache. *)
Theorem Get_is_repeatable u key u1 b :
  finds_what_was_put C -> keeps_what_was_found C ->
  Get u key = Ret (u1, (b, None)) ->
  exists c2,
    Get u1 key = Ret ({| persister := persister u1; cacher := c2 |}, (b, None)).
Proof.
  intros Hfound Hkept. unfold Get at 1.
  destruct (Cacher_Get (cacher u) key) as [c1 [v [|]]] eqn:Hc; cbn [negb].
  - destruct v as [|b0|tag]; cbn; try discriminate.
    intros [= <- <-]. cbn [persister].
    destruct (Hkept _ _ _ _ Hc) as [c2 Hhit].
    exists c2. unfold Get. cbn [cacher persister]. rewrite Hhit. reflexivity.
  - destruct (Persister_Get (persister u) key) as [p1 [v1 [e|]]]; [discriminate|].
    destruct v1 as [|b1|tag]; cbn; try discriminate.
    destruct (Cacher_Put c1 key (VBytes b1) (len b1)) as [c2 ev] eqn:Hput.
    intros [= <- <-]. cbn [persister].
    destruct (Hfound c1 key (VBytes b1) (len b1)) as [c3 Hhit].
    rewrite Hput in Hhit. cbn [fst] in Hhit.
    exists c3. unfold Get. cbn [cacher persister]. rewrite Hhit. reflexivity.
Qed.

(** X5: [ClearCache], [Close] and [DestroyUnit] clear the cache, also
    when the persister reports an error; [Close] and [DestroyUnit] return
    the persister's error as it is, and [ClearCache] leaves the persister
    alone. After any of them, [Get] returns only what the persister
    holds. *)
Theorem cleared_unit_reads_persister u key :
  misses_after_clear C ->
  persister (ClearCache u) = persister u /\
  Close u = ({| persister := (Persister_Close (persister u)).1;
                cacher := Cacher_Clear (cacher u) |},
             (Persister_Close (persister u)).2) /\
  DestroyUnit u = ({| persister := (Persister_Destroy (persister u)).1;
                      cacher := Cacher_Clear (cacher u) |},
                   (Persister_Destroy (persister u)).2) /\
  forall u1, u1 = ClearCache u \/ u1 = (Close u).1 \/ u1 = (DestroyUnit u).1 ->
    forall u2 b, Get u1 key = Ret (u2, (b, None)) ->
      exists p2, Persister_Get (persister u1) key = (p2, (VBytes b, None)).
Proof.
  intros Hmiss.
  assert (Hclose : Close u = ({| persister := (Persister_Close (persister u)).1;
                                 cacher := Cacher_Clear (cacher u) |},
                              (Persister_Close (persister u)).2)).
  { unfold Close. destruct (Persister_Close (persister u)) as [p1 [e|]]; reflexivity. }
  assert (Hdestroy : DestroyUnit u =
            ({| persister := (Persister_Destroy (persister u)).1;
                cacher := Cacher_Clear (cacher u) |},
             (Persister_Destroy (persister u)).2)).
  { unfold DestroyUnit. destruct (Persister_Destroy (persister u)) as [p1 e]; reflexivity. }
  split; [reflexivity|]. split; [exact Hclose|]. split; [exact Hdestroy|].
  intros u1 Hu1 u2 b. apply Get_after_miss.
  destruct Hu1 as [-> | [-> | ->]];
    [|rewrite Hclose|rewrite Hdestroy]; apply Hmiss.
Qed.

End UnitComposition.

Section UnitSessions.
Import storageUnit observe laws session.

Context {C P : Type} `{!Cacher C, !Persister P}.

Implicit Types (u : Unit C P) (key data : ByteSlice).

Lemma step_holds_bytes holds_bytes u op :
  bytes_only C holds_bytes -> holds_bytes (cacher u) ->
  exists u1, step u op = Ret u1 /\ holds_bytes (cacher u1).
Proof.
  intros (Hget & Hput & Hhas & Hrem & Hclear) Hu.
  destruct op as [key data|key|keys epoch|key|key| | |]; cbn [step].
  - eexists. split; [reflexivity|]. apply Put_holds_bytes; auto.
  - destruct (Get_holds_bytes holds_bytes Hget Hput u key Hu) as (u1 & a & -> & Hu1).
    eauto.
  - destruct (Get_each_holds_bytes holds_bytes Hget Hput keys u Hu)
      as (u1 & answers & Heach & Hu1).
    unfold GetBulkFromEpoch. rewrite GetBulkFromEpoch_loop_answers, Heach. eauto.
  - eexists. split; [reflexivity|]. unfold Has.
    pose proof (Hhas (cacher u) key Hu) as Hc.
    destruct (Cacher_Has (cacher u) key) as [c1 [|]]; [exact Hc|].
    destruct (Persister_Has (persister u) key) as [p1 e]. exact Hc.
  - eexists. split; [reflexivity|]. unfold Remove.
    destruct (Persister_Remove (persister u) key) as [p1 e]. cbn. auto.
  - eexists. split; [reflexivity|]. cbn. auto.
  - eexists. split; [reflexivity|]. unfold Close.
    destruct (Persister_Close (persister u)) as [p1 [e|]]; cbn; auto.
  - eexists. split; [reflexivity|]. unfold DestroyUnit.
    destruct (Persister_Destroy (persister u)) as [p1 e]. cbn. auto.
Qed.

(** X6: on a unit whose cacher holds byte slices only, no sequence of
    calls of [Put], [Get], [GetBulkFromEpoch], [Has], [Remove],
    [ClearCache], [Close] and [DestroyUnit] panics, and the cacher holds
    byte slices only after every one of them: the unit itself never puts
    anything else into its cache. *)
Theorem sessions_never_panic holds_bytes ops : forall u,
  bytes_only C holds_bytes -> holds_bytes (cacher u) ->
  exists u1, run u ops = Ret u1 /\ holds_bytes (cacher u1).
Proof.
  induction ops as [|op ops IH]; intros u Hlaws Hu; cbn [run]; [eauto|].
  destruct (step_holds_bytes holds_bytes u op Hlaws Hu) as (u1 & -> & Hu1).
  apply IH; assumption.
Qed.

Lemma succeeded_keys_sublist
    (answers : list (ByteSlice * (ByteSlice * option Error))) :
  (storageCore.Key <$> succeeded answers) `sublist_of` answers.*1.
Proof.
  induction answers as [|[k [v [e|]]] answers IH]; cbn.
  - constructor.
  - apply sublist_cons. exact IH.
  - apply sublist_skip. exact IH.
Qed.

(** X7: whenever [GetBulkFromEpoch] returns, its error is nil and the
    keys of the pairs it returns are keys of the request, in the order of
    the request and no more often than asked for; so it returns at most as
    many pairs as keys were asked. *)
Theorem GetBulkFromEpoch_keys_are_requested u keys epoch u1 results err :
  GetBulkFromEpoch u keys epoch = Ret (u1, (results, err)) ->
  err = None /\
  (storageCore.Key <$> results) `sublist_of` keys /\
  (length results <= length keys)%nat.
Proof.
  unfold GetBulkFromEpoch. rewrite GetBulkFromEpoch_loop_answers.
  destruct (Get_each u keys) as [[u2 answers]|] eqn:Heach; [|discriminate].
  intros [= _ <- <-].
  assert (Hsub : (storageCore.Key <$> succeeded answers) `sublist_of` keys).
  { rewrite <- (Get_each_keys keys u u2 answers Heach). apply succeeded_keys_sublist. }
  split; [reflexivity|]. split; [exact Hsub|].
  apply sublist_length in Hsub. rewrite length_fmap in Hsub. exact Hsub.
Qed.

Lemma Get_each_app keys1 keys2 : forall u,
  Get_each u (keys1 ++ keys2) =
    match Get_each u keys1 with
    | Panic => Panic
    | Ret (u1, answers1) =>
        match Get_each u1 keys2 with
        | Panic => Panic
        | Ret (u2, answers2) => Ret (u2, answers1 ++ answers2)
        end
    end.
Proof.
  induction keys1 as [|key keys1 IH]; intros u; cbn [app Get_each].
  - destruct (Get_each u keys2) as [[u2 answers2]|]; reflexivity.
  - destruct (Get u key) as [[u1 answer]|]; [|reflexivity].
    rewrite IH. destruct (Get_each u1 keys1) as [[u2 answers1]|]; [|reflexivity].
    destruct (Get_each u2 keys2) as [[u3 answers2]|]; reflexivity.
Qed.

(** X8: asking for [keys1 ++ keys2] in one call is asking for [keys1]
    and then, of the unit that call left, for [keys2]: the same unit at
    the end and the two results one after the other (and a panic if and
    only if one of the two calls panics). *)
Theorem GetBulkFromEpoch_app u keys1 keys2 epoch :
  GetBulkFromEpoch u (keys1 ++ keys2) epoch =
    match GetBulkFromEpoch u keys1 epoch with
    | Panic => Panic
    | Ret (u1, (results1, _)) =>
        match GetBulkFromEpoch u1 keys2 epoch with
        | Panic => Panic
        | Ret (u2, (results2, _)) => Ret (u2, (results1 ++ results2, None))
        end
    end.
Proof.
  unfold GetBulkFromEpoch. rewrite !GetBulkFromEpoch_loop_answers, Get_each_app.
  destruct (Get_each u keys1) as [[u1 answers1]|]; [|reflexivity].
  rewrite GetBulkFromEpoch_loop_answers.
  destruct (Get_each u1 keys2) as [[u2 answers2]|]; [|reflexivity].
  unfold succeeded. rewrite omap_app. reflexivity.
Qed.

End UnitSessions.

(** * Further properties of construction *)

Section ConstructionComposition.
Import storageUnit observe.

Context `{Arch} {C P F : Type}
  `{!Cacher C, !Persister P, !CacheEngines C, !PersisterFactoryHandler F P}.

(** A conversion to a signed integer lands in the range of the type and
    differs from the number converted by a multiple of the modulus. *)
Lemma to_int64_spec z :
  exists k, to_int64 z = z + k * 2 ^ 64 /\ - 2 ^ 63 <= to_int64 z < 2 ^ 63.
Proof.
  unfold to_int64, wrap_signed.
  change (2 ^ (64 - 1)) with (2 ^ 63).
  pose proof (Z.div_mod (z + 2 ^ 63) (2 ^ 64) ltac:(lia)) as Hdm.
  pose proof (Z.mod_pos_bound (z + 2 ^ 63) (2 ^ 64) ltac:(lia)) as Hb.
  exists (- ((z + 2 ^ 63) / 2 ^ 64)). lia.
Qed.

(** X9: [MonitorNewCache] keeps the cumulated size within an [int64].
    A size below 2^63 is added as it is, as long as the sum fits; a size of
    2^63 or more is converted to a negative [int64], so that the cumulated
    size goes down by 2^64 minus the size. *)
Theorem MonitorNewCache_cumulated_size tag sizeInBytes w :
  let w1 := monitoring.MonitorNewCache tag sizeInBytes w in
  - 2 ^ 63 <= cumulatedSizeInBytes w1 < 2 ^ 63 /\
  history w1 = history w ++ [EvMonitorNewCache tag sizeInBytes] /\
  (0 <= sizeInBytes < 2 ^ 63 ->
   - 2 ^ 63 <= cumulatedSizeInBytes w + sizeInBytes < 2 ^ 63 ->
   cumulatedSizeInBytes w1 = cumulatedSizeInBytes w + sizeInBytes) /\
  (2 ^ 63 <= sizeInBytes < 2 ^ 64 ->
   - 2 ^ 63 <= cumulatedSizeInBytes w - (2 ^ 64 - sizeInBytes) < 2 ^ 63 ->
   cumulatedSizeInBytes w1 = cumulatedSizeInBytes w - (2 ^ 64 - sizeInBytes)).
Proof.
  cbn zeta. unfold monitoring.MonitorNewCache. cbn [record cumulatedSizeInBytes history].
  destruct (to_int64_spec sizeInBytes) as (k1 & Hk1 & Hr1).
  destruct (to_int64_spec (cumulatedSizeInBytes w + to_int64 sizeInBytes))
    as (k2 & Hk2 & Hr2).
  split; [exact Hr2|]. split; [reflexivity|]. split; intros Hs Hsum; lia.
Qed.

(** What [NewCache] does to the world. *)
Lemma NewCache_world config w :
  exists tr,
    (NewCache config w).1 =
      extend (monitoring.MonitorNewCache (CacheConfig.Name config)
                (CacheConfig.SizeInBytes config) w) tr /\
    (length tr <= 1)%nat /\
    Forall (fun e => is_cache_built e = true) tr.
Proof.
  unfold NewCache.
  set (w0 := monitoring.MonitorNewCache _ _ w).
  assert (Hnone : exists tr, w0 = extend w0 tr /\ (length tr <= 1)%nat /\
                    Forall (fun e => is_cache_built e = true) tr).
  { exists []. rewrite extend_nil. cbn. auto. }
  assert (Hone : forall e, is_cache_built e = true ->
            exists tr, record e w0 = extend w0 tr /\ (length tr <= 1)%nat /\
              Forall (fun e => is_cache_built e = true) tr).
  { intros e He. exists [e]. rewrite record_extend. cbn. auto. }
  destruct (String.eqb _ LRUCache).
  { destruct (negb _); [exact Hnone|].
    destruct (lrucache_NewCache _) as [c [e|]]; apply Hone; reflexivity. }
  destruct (String.eqb _ SizeLRUCache).
  { destruct (_ <? _); [exact Hnone|].
    destruct (lrucache_NewCacheWithSizeInBytes _ _) as [c [e|]]; apply Hone; reflexivity. }
  destruct (String.eqb _ FIFOShardedCache); [|exact Hnone].
  destruct (fifocache_NewShardedCache _ _) as [c [e|]]; apply Hone; reflexivity.
Qed.

(** X10: [NewCache] never returns a cacher together with an error, also
    when a cache constructor does. Whatever it returns, it has announced
    the cache to monitoring first, and after that has called at most one
    cache constructor and nothing else. *)
Theorem NewCache_returns_cacher_or_error config w :
  ((NewCache config w).2.2 = None \/ (NewCache config w).2.1 = None) /\
  exists tr,
    history (NewCache config w).1 =
      history w ++ EvMonitorNewCache (CacheConfig.Name config)
                     (CacheConfig.SizeInBytes config) :: tr /\
    (length tr <= 1)%nat /\
    Forall (fun e => is_cache_built e = true) tr.
Proof.
  split.
  - unfold NewCache.
    destruct (String.eqb _ LRUCache).
    { destruct (negb _); [right; reflexivity|].
      destruct (lrucache_NewCache _) as [c [e|]]; cbn; auto. }
    destruct (String.eqb _ SizeLRUCache).
    { destruct (_ <? _); [right; reflexivity|].
      destruct (lrucache_NewCacheWithSizeInBytes _ _) as [c [e|]]; cbn; auto. }
    destruct (String.eqb _ FIFOShardedCache); [|right; reflexivity].
    destruct (fifocache_NewShardedCache _ _) as [c [e|]]; cbn; auto.
  - destruct (NewCache_world config w) as (tr & -> & Hlen & Hbuilt).
    exists tr. split; [|auto].
    cbn. rewrite <- app_assoc. reflexivity.
Qed.

(** X11: for a size-bounded LRU cache with a size of 1024 or more, the
    constructor is called with the size converted to [int64]: the size
    itself below 2^63, and a negative number, the size minus 2^64, from
    2^63 on. *)
Theorem NewCache_SizeLRU_size_conversion config w :
  CacheConfig.Type_ config = SizeLRUCache ->
  1024 <= CacheConfig.SizeInBytes config < 2 ^ 64 ->
  let size := CacheConfig.SizeInBytes config in
  let passed := if size <? 2 ^ 63 then size else size - 2 ^ 64 in
  history (NewCache config w).1 =
    history w ++ [EvMonitorNewCache (CacheConfig.Name config) size;
                  EvNewSizeLRUCache (to_int (CacheConfig.Capacity config)) passed] /\
  (NewCache config w).2 =
    match lrucache_NewCacheWithSizeInBytes
            (to_int (CacheConfig.Capacity config)) passed with
    | (_, Some e) => (None, Some e)
    | (cacher, None) => (cacher, None)
    end.
Proof.
  intros Htype Hsize size passed.
  assert (Hconv : to_int64 size = passed).
  { subst passed size. destruct (to_int64_spec (CacheConfig.SizeInBytes config))
      as (k & Hk & Hr).
    destruct (Z.ltb_spec (CacheConfig.SizeInBytes config) (2 ^ 63)); lia. }
  unfold NewCache. rewrite Htype. cbn [String.eqb Ascii.eqb Bool.eqb SizeLRUCache LRUCache].
  fold size. unfold minimumSizeForLRUCache.
  destruct (Z.ltb_spec size 1024) as [Hlt|_]; [subst size; lia|].
  rewrite Hconv.
  destruct (lrucache_NewCacheWithSizeInBytes _ passed) as [c [e|]]; cbn;
    rewrite <- app_assoc; split; reflexivity.
Qed.

(** X12: for a sharded FIFO cache the size in bytes is not looked at:
    two configurations of that type with the same capacity and the same
    number of shards get the same answer, whatever their sizes in bytes and
    their names. *)
Theorem NewCache_FIFOSharded_ignores_size config1 config2 w1 w2 :
  CacheConfig.Type_ config1 = FIFOShardedCache ->
  CacheConfig.Type_ config2 = FIFOShardedCache ->
  CacheConfig.Capacity config1 = CacheConfig.Capacity config2 ->
  CacheConfig.Shards config1 = CacheConfig.Shards config2 ->
  (NewCache config1 w1).2 = (NewCache config2 w2).2.
Proof.
  intros Ht1 Ht2 Hcap Hshards. unfold NewCache.
  rewrite Ht1, Ht2, Hcap, Hshards.
  cbn [String.eqb Ascii.eqb Bool.eqb FIFOShardedCache SizeLRUCache LRUCache].
  destruct (fifocache_NewShardedCache _ _) as [c [e|]]; reflexivity.
Qed.

End ConstructionComposition.

Section UnitConstruction.
Import storageUnit observe.

Context `{Arch} {C P F : Type}
  `{!Cacher C, !Persister P, !CacheEngines C, !PersisterFactoryHandler F P}.

(** X13: [NewStorageUnit] looks at the persister first: a nil persister
    gives the nil-persister error, also when the cacher is nil too; a nil
    cacher with a persister gives the nil-cacher error; and a unit that is
    returned comes without an error and holds the very cacher and persister
    given, neither of them nil. *)
Theorem NewStorageUnit_checks_persister_first (c : option C) (p : option P) :
  (IfNil Persister_IsInterfaceNil p = true ->
   NewStorageUnit c p = (None, Some ErrNilPersister)) /\
  (IfNil Persister_IsInterfaceNil p = false ->
   IfNil Cacher_IsInterfaceNil c = true ->
   NewStorageUnit c p = (None, Some ErrNilCacher)) /\
  (forall u, (NewStorageUnit c p).1 = Some u ->
     NewStorageUnit c p = (Some u, None) /\
     c = Some (cacher u) /\ p = Some (persister u) /\
     Cacher_IsInterfaceNil (cacher u) = false /\
     Persister_IsInterfaceNil (persister u) = false).
Proof.
  unfold NewStorageUnit. repeat apply conj.
  - intros ->. reflexivity.
  - intros -> ->. reflexivity.
  - intros u.
    destruct p as [p0|]; cbn [IfNil]; [|discriminate].
    destruct (Persister_IsInterfaceNil p0) eqn:Hp; [discriminate|].
    destruct c as [c0|]; cbn [IfNil]; [|discriminate].
    destruct (Cacher_IsInterfaceNil c0) eqn:Hc; [discriminate|].
    cbn. intros [= <-]. cbn. auto.
Qed.

Lemma NewStorageUnit_unit_or_error (c : option C) (p : option P) :
  (exists u, NewStorageUnit c p = (Some u, None)) \/
  (exists e, NewStorageUnit c p = (None, Some e)).
Proof.
  unfold NewStorageUnit.
  destruct (IfNil Persister_IsInterfaceNil p); [eauto|].
  destruct (IfNil Cacher_IsInterfaceNil c); [eauto|].
  destruct c, p; eauto.
Qed.

(** X14: [NewStorageUnitFromConf] returns a unit and no error, or an
    error and no unit, never both and never neither, whatever the cache
    constructors and the factory return. *)
Theorem NewStorageUnitFromConf_unit_or_error cacheConf dbConf
    (persisterFactory : option F) w :
  (exists u, (NewStorageUnitFromConf cacheConf dbConf persisterFactory w).2
             = (Some u, None)) \/
  (exists e, (NewStorageUnitFromConf cacheConf dbConf persisterFactory w).2
             = (None, Some e)).
Proof.
  unfold NewStorageUnitFromConf.
  destruct (_ <? _); [eauto|].
  destruct (NewCache cacheConf w) as [w1 [cache [e|]]]; [eauto|].
  destruct (NewDB persisterFactory (DBConfig.FilePath dbConf) w1)
    as [[w2 pf2] [db [e|]]]; [eauto|].
  apply NewStorageUnit_unit_or_error.
Qed.

Lemma NewCache_no_Create config w :
  count is_create (history (NewCache config w).1) = count is_create (history w) /\
  count is_sleep (history (NewCache config w).1) = count is_sleep (history w).
Proof.
  destruct (NewCache_world config w) as (tr & -> & Hlen & Hbuilt).
  cbn [extend history monitoring.MonitorNewCache record].
  rewrite !count_app.
  assert (Hnone : count is_create tr = O /\ count is_sleep tr = O).
  { clear Hlen. induction Hbuilt as [|e tr He _ [IHc IHs]]; [split; reflexivity|].
    unfold count in *. destruct e; try discriminate; cbn; auto. }
  destruct Hnone as [-> ->]. unfold count. cbn. lia.
Qed.

(** X15: when the batch size passes the check and [NewCache] fails,
    [NewStorageUnitFromConf] returns the error of [NewCache] and the
    persister factory is left alone: [Create] is not called and no sleep is
    taken. *)
Theorem NewStorageUnitFromConf_cache_error cacheConf dbConf
    (persisterFactory : option F) w e :
  DBConfig.MaxBatchSize dbConf <= to_int (CacheConfig.Capacity cacheConf) ->
  (NewCache cacheConf w).2.2 = Some e ->
  NewStorageUnitFromConf cacheConf dbConf persisterFactory w =
    ((NewCache cacheConf w).1, persisterFactory, (None, Some e)) /\
  count is_create (history (NewCache cacheConf w).1) = count is_create (history w) /\
  count is_sleep (history (NewCache cacheConf w).1) = count is_sleep (history w).
Proof.
  intros Hbatch Herr. split; [|apply NewCache_no_Create].
  unfold NewStorageUnitFromConf.
  destruct (Z.ltb_spec (to_int (CacheConfig.Capacity cacheConf))
              (DBConfig.MaxBatchSize dbConf)); [lia|].
  destruct (NewCache cacheConf w) as [w1 [cache err]]. cbn in Herr. subst err.
  reflexivity.
Qed.

(** X16: a nil persister factory is noticed only after the cache: when
    the batch size passes the check and [NewCache] succeeds,
    [NewStorageUnitFromConf] with a nil factory returns the
    nil-persister-factory error in the world that [NewCache] left, in which
    the cache has been announced to monitoring. *)
Theorem NewStorageUnitFromConf_nil_factory_after_cache cacheConf dbConf
    (persisterFactory : option F) w :
  DBConfig.MaxBatchSize dbConf <= to_int (CacheConfig.Capacity cacheConf) ->
  (NewCache cacheConf w).2.2 = None ->
  IfNil Factory_IsInterfaceNil persisterFactory = true ->
  NewStorageUnitFromConf cacheConf dbConf persisterFactory w =
    ((NewCache cacheConf w).1, persisterFactory, (None, Some ErrNilPersisterFactory)) /\
  exists tr,
    history (NewCache cacheConf w).1 =
      history w ++ EvMonitorNewCache (CacheConfig.Name cacheConf)
                     (CacheConfig.SizeInBytes cacheConf) :: tr.
Proof.
  intros Hbatch Hok Hnil. split.
  - unfold NewStorageUnitFromConf.
    destruct (Z.ltb_spec (to_int (CacheConfig.Capacity cacheConf))
                (DBConfig.MaxBatchSize dbConf)); [lia|].
    destruct (NewCache cacheConf w) as [w1 [cache err]]. cbn in Hok. subst err.
    unfold NewDB. rewrite Hnil. reflexivity.
  - destruct (NewCache_world cacheConf w) as (tr & -> & _).
    exists tr. cbn. rewrite <- app_assoc. reflexivity.
Qed.

End UnitConstruction.

Section Retries.
Import storageUnit observe.

Context `{Arch} {C P F : Type}
  `{!Cacher C, !Persister P, !CacheEngines C, !PersisterFactoryHandler F P}.

Lemma NewDB_loop_events path n : forall (f : F) db err w,
  exists tr,
    (NewDB_loop n f path db err w).1.1 = extend w tr /\
    Forall (fun e => e = EvCreate path \/
                     e = EvSleep SleepTimeBetweenCreateDBRetries) tr /\
    (count is_sleep tr <= count is_create tr <= n)%nat.
Proof.
  induction n as [|n IH]; intros f db err w; cbn [NewDB_loop].
  - exists []. rewrite extend_nil. destruct err; cbn; auto.
  - destruct (Factory_Create f path) as [f1 [db1 [e1|]]].
    + destruct (IH f1 db1 (Some e1)
                  (record (EvSleep SleepTimeBetweenCreateDBRetries)
                     (record (EvCreate path) w))) as (tr & -> & Hall & Hcount).
      exists ([EvCreate path; EvSleep SleepTimeBetweenCreateDBRetries] ++ tr).
      rewrite !record_extend, !extend_extend. split; [reflexivity|]. split.
      * apply Forall_app. split; [|exact Hall].
        constructor; [left; reflexivity|].
        constructor; [right; reflexivity|constructor].
      * rewrite !count_app. unfold count at 1 3. cbn. lia.
    + exists [EvCreate path]. rewrite record_extend. cbn.
      split; [reflexivity|].
      split; [constructor; [left; reflexivity|constructor]|].
      unfold count. cbn. lia.
Qed.

(** X17: whatever the factory does, all that [NewDB] does to the world
    is call [Create], with the path it was given, and sleep for five
    seconds: it adds nothing else to the history, takes nothing away from
    it and leaves the monitoring counter alone; it never sleeps more often
    than it has called [Create], and never calls [Create] more than ten
    times. *)
Theorem NewDB_only_creates_and_sleeps (persisterFactory : option F) path w :
  exists tr,
    (NewDB persisterFactory path w).1.1 = extend w tr /\
    Forall (fun e => e = EvCreate path \/ e = EvSleep (5 * Second)) tr /\
    (count is_sleep tr <= count is_create tr <= 10)%nat.
Proof.
  unfold NewDB.
  assert (Hnone : exists tr, w = extend w tr /\
            Forall (fun e => e = EvCreate path \/ e = EvSleep (5 * Second)) tr /\
            (count is_sleep tr <= count is_create tr <= 10)%nat).
  { exists []. rewrite extend_nil. unfold count. cbn. split; [reflexivity|].
    split; [constructor|lia]. }
  destruct (IfNil Factory_IsInterfaceNil persisterFactory); [exact Hnone|].
  destruct persisterFactory as [f|]; [|exact Hnone].
  destruct (NewDB_loop_events path MaxRetriesToCreateDB f None None w)
    as (tr & Htr & Hall & Hcount).
  destruct (NewDB_loop MaxRetriesToCreateDB f path None None w) as [[w1 f1] r].
  cbn in *. eauto.
Qed.

(** X19: when the batch size passes the check and [NewCache] succeeds,
    [NewStorageUnitFromConf] retries [Create] on the file path of the
    database configuration. If call number [j + 1], one of the first ten, is
    the first to succeed, the result is what [NewStorageUnit] makes of the
    cache and of the persister of that call; if the first ten calls fail,
    the cache that was built is dropped and the error of the tenth call is
    returned. *)
Theorem NewStorageUnitFromConf_composes cacheConf dbConf (f : F) w w1 cache :
  DBConfig.MaxBatchSize dbConf <= to_int (CacheConfig.Capacity cacheConf) ->
  NewCache cacheConf w = (w1, (cache, None)) ->
  Factory_IsInterfaceNil f = false ->
  let path := DBConfig.FilePath dbConf in
  (forall j pdb, (j < 10)%nat ->
     (forall i, (i < j)%nat -> fails (attempt f path i)) ->
     attempt f path j = (pdb, None) ->
     NewStorageUnitFromConf cacheConf dbConf (Some f) w =
       (extend w1 (failed_attempts path j ++ [EvCreate path]),
        Some (factory_after f path (S j)), NewStorageUnit cache pdb)) /\
  ((forall i, (i < 10)%nat -> fails (attempt f path i)) ->
     exists e, (attempt f path 9).2 = Some e /\
       NewStorageUnitFromConf cacheConf dbConf (Some f) w =
         (extend w1 (failed_attempts path 10),
          Some (factory_after f path 10), (None, Some e))).
Proof.
  intros Hbatch Hcache Hnil path.
  assert (Hrun : NewStorageUnitFromConf cacheConf dbConf (Some f) w =
            let '(w2, pf2, (db, err2)) := NewDB (Some f) path w1 in
            match err2 with
            | Some e => (w2, pf2, (None, Some e))
            | None => (w2, pf2, NewStorageUnit cache db)
            end).
  { unfold NewStorageUnitFromConf.
    destruct (Z.ltb_spec (to_int (CacheConfig.Capacity cacheConf))
                (DBConfig.MaxBatchSize dbConf)); [lia|].
    rewrite Hcache. reflexivity. }
  rewrite Hrun. unfold NewDB. cbn [IfNil]. rewrite Hnil.
  unfold MaxRetriesToCreateDB. split.
  - intros j pdb Hj Hfail Hok.
    rewrite (NewDB_loop_first_success path 10 j f None None w1 pdb Hj Hfail Hok).
    reflexivity.
  - intros Hfail.
    destruct (NewDB_loop_all_fail path 10 f None None w1 Hfail) as (e & He & ->);
      [discriminate|].
    exists e. split; [exact He|reflexivity].
Qed.

(** X20: on a target whose [int] has 32 bits, a capacity of 2^31 or
    more becomes a negative [int], and [NewStorageUnitFromConf] refuses
    every batch size that is not negative with the
    batch-size-exceeds-capacity error, although the capacity is the
    larger number. *)
Theorem NewStorageUnitFromConf_capacity_wraps_on_32_bits cacheConf dbConf
    (persisterFactory : option F) w :
  intSize = 32 ->
  2 ^ 31 <= CacheConfig.Capacity cacheConf < 2 ^ 32 ->
  0 <= DBConfig.MaxBatchSize dbConf ->
  to_int (CacheConfig.Capacity cacheConf) = CacheConfig.Capacity cacheConf - 2 ^ 32 /\
  NewStorageUnitFromConf cacheConf dbConf persisterFactory w =
    (w, persisterFactory, (None, Some ErrCacheSizeIsLowerThanBatchSize)).
Proof.
  intros Hsize Hcap Hbatch.
  assert (Hconv : to_int (CacheConfig.Capacity cacheConf)
                  = CacheConfig.Capacity cacheConf - 2 ^ 32).
  { unfold to_int, wrap_signed. rewrite Hsize.
    change (2 ^ (32 - 1)) with (2 ^ 31).
    pose proof (Z.div_mod (CacheConfig.Capacity cacheConf + 2 ^ 31) (2 ^ 32)
                  ltac:(lia)) as Hdm.
    pose proof (Z.mod_pos_bound (CacheConfig.Capacity cacheConf + 2 ^ 31) (2 ^ 32)
                  ltac:(lia)) as Hb.
    lia. }
  split; [exact Hconv|].
  unfold NewStorageUnitFromConf. rewrite Hconv.
  destruct (Z.ltb_spec (CacheConfig.Capacity cacheConf - 2 ^ 32)
              (DBConfig.MaxBatchSize dbConf)); [reflexivity|lia].
Qed.

End Retries.

Section MockFactory.
Import storageUnit observe factorymock.

Context {FS P : Type} `{!Databases FS P}.

Lemma factory_after_fixed {F : Type} `{!PersisterFactoryHandler F P}
    (f : F) path r :
  Factory_Create f path = (f, r) ->
  forall n, factory_after f path n = f /\ attempt f path n = r.
Proof.
  intros Hfix n. assert (Hf : factory_after f path n = f).
  { induction n as [|n IH]; [reflexivity|]. cbn. rewrite Hfix. exact IH. }
  split; [exact Hf|]. unfold attempt. rewrite Hf, Hfix. reflexivity.
Qed.

(** X21: with the factory of [testscommon], a database type that is not
    supported is not noticed at once: [NewDB] calls [Create] ten times,
    sleeps ten times and only then returns the not-supported-DB-type error.
    For the memory database the first call succeeds: one [Create], no
    sleep. In both cases the handler and the file system are unchanged. *)
Theorem NewDB_with_the_mock_factory (mock : persisterFactoryHandlerMock)
    (fs : FS) path w :
  (dbType mock <> LvlDB -> dbType mock <> LvlDBSerial -> dbType mock <> MemoryDB ->
   NewDB (Some (mock, fs)) path w =
     (extend w (failed_attempts path 10), Some (mock, fs),
      (None, Some ErrNotSupportedDBType))) /\
  (dbType mock = MemoryDB ->
   NewDB (Some (mock, fs)) path w =
     (extend w [EvCreate path], Some (mock, fs), (Some memorydb_New, None))).
Proof.
  split.
  - intros H1 H2 H3.
    assert (Hfix : Factory_Create (mock, fs) path
                   = ((mock, fs), (None, Some ErrNotSupportedDBType))).
    { cbn. apply String.eqb_neq in H1, H2, H3. rewrite H1, H2, H3. reflexivity. }
    pose proof (factory_after_fixed _ path _ Hfix) as Hafter.
    unfold NewDB. cbn [IfNil Factory_IsInterfaceNil persisterFactoryHandlerMock_Handler
                         IsInterfaceNil].
    unfold MaxRetriesToCreateDB.
    destruct (NewDB_loop_all_fail path 10 (mock, fs) None None w)
      as (e & He & ->).
    + intros i _. unfold fails. rewrite (proj2 (Hafter i)). cbn. eauto.
    + discriminate.
    + rewrite (proj2 (Hafter 9%nat)) in He. cbn in He. injection He as <-.
      rewrite (proj1 (Hafter 10%nat)). reflexivity.
  - intros Hmem.
    assert (Hfix : Factory_Create (mock, fs) path
                   = ((mock, fs), (Some memorydb_New, None))).
    { cbn. rewrite Hmem. reflexivity. }
    pose proof (factory_after_fixed _ path _ Hfix) as Hafter.
    unfold NewDB. cbn [IfNil Factory_IsInterfaceNil persisterFactoryHandlerMock_Handler
                         IsInterfaceNil].
    unfold MaxRetriesToCreateDB.
    rewrite (NewDB_loop_first_success path 10 0 (mock, fs) None None w
               (Some memorydb_New)); [|lia|intros i Hi; lia|apply Hafter].
    change (factory_after (mock, fs) path 1)
      with (factory_after (Factory_Create (mock, fs) path).1 path 0).
    rewrite Hfix. reflexivity.
Qed.

End MockFactory.

(** * The further properties at work *)

Section MoreRuns.
Import storageUnit observe laws session factorymock testscommon.

Lemma MapCacher_finds_what_was_put : finds_what_was_put (gmap (list byte) Any).
Proof. intros c k x n. cbn. rewrite lookup_insert_eq. eauto. Qed.

Lemma MapCacher_keeps_what_was_found : keeps_what_was_found (gmap (list byte) Any).
Proof.
  intros c k c1 v.
  change (Cacher_Get c k)
    with (c, match c !! bytes_of k with
             | Some v => (v, true)
             | None => (VNil, false)
             end).
  destruct (c !! bytes_of k) as [v0|] eqn:Hlook; intros Heq; inversion Heq; subst.
  exists c1. cbn. rewrite Hlook. reflexivity.
Qed.

Lemma MapCacher_has_what_was_put : has_what_was_put (gmap (list byte) Any).
Proof. intros c k x n. cbn. rewrite lookup_insert_eq. reflexivity. Qed.


Lemma MapCacher_misses_after_clear : misses_after_clear (gmap (list byte) Any).
Proof. intros c k. reflexivity. Qed.

Lemma MapCacher_bytes_only : bytes_only (gmap (list byte) Any) all_bytes.
Proof.
  repeat apply conj.
  - intros c key c' v ok. apply all_bytes_Get.
  - intros c key b n. apply all_bytes_Put.
  - intros c key Hc. exact Hc.
  - intros c key Hc. cbn. apply map_Forall_delete. exact Hc.
  - intros c. cbn. apply map_Forall_empty.
Qed.

Lemma Put_then_Get_witness :
  finds_what_was_put (gmap (list byte) Any) /\
  Put unit_cold key_c val_1 = ((Put unit_cold key_c val_1).1, None) /\
  exists c2,
    Get (Put unit_cold key_c val_1).1 key_c =
      Ret ({| persister := persister (Put unit_cold key_c val_1).1; cacher := c2 |},
           (val_1, None)).
Proof.
  assert (Hput : Put unit_cold key_c val_1 = ((Put unit_cold key_c val_1).1, None))
    by reflexivity.
  split; [exact MapCacher_finds_what_was_put|]. split; [exact Hput|].
  exact (Put_then_Get unit_cold key_c val_1 _ MapCacher_finds_what_was_put Hput).
Defined.

Lemma Put_then_Has_witness :
  has_what_was_put (gmap (list byte) Any) /\
  Put unit_cold key_c val_1 = ((Put unit_cold key_c val_1).1, None) /\
  (Has (Put unit_cold key_c val_1).1 key_c).2 = None /\
  persister (Has (Put unit_cold key_c val_1).1 key_c).1
    = persister (Put unit_cold key_c val_1).1.
Proof.
  assert (Hput : Put unit_cold key_c val_1 = ((Put unit_cold key_c val_1).1, None))
    by reflexivity.
  split; [exact MapCacher_has_what_was_put|]. split; [exact Hput|].
  exact (Put_then_Has unit_cold key_c val_1 _ MapCacher_has_what_was_put Hput).
Defined.


Lemma Get_is_repeatable_witness :
  finds_what_was_put (gmap (list byte) Any) /\
  keeps_what_was_found (gmap (list byte) Any) /\
  Get unit_cold key_a = Ret (unit_warm, (val_1, None)) /\
  exists c2,
    Get unit_warm key_a =
      Ret ({| persister := persister unit_warm; cacher := c2 |}, (val_1, None)).
Proof.
  assert (Hget : Get unit_cold key_a = Ret (unit_warm, (val_1, None))) by reflexivity.
  split; [exact MapCacher_finds_what_was_put|].
  split; [exact MapCacher_keeps_what_was_found|]. split; [exact Hget|].
  exact (Get_is_repeatable unit_cold key_a unit_warm val_1
           MapCacher_finds_what_was_put MapCacher_keeps_what_was_found Hget).
Defined.

Lemma cleared_unit_reads_persister_witness :
  misses_after_clear (gmap (list byte) Any) /\
  persister (ClearCache unit_warm) = persister unit_warm /\
  forall u2 b, Get (ClearCache unit_warm) key_a = Ret (u2, (b, None)) ->
    exists p2,
      Persister_Get (persister (ClearCache unit_warm)) key_a = (p2, (VBytes b, None)).
Proof.
  destruct (cleared_unit_reads_persister unit_warm key_a MapCacher_misses_after_clear)
    as (Hsame & _ & _ & Hget).
  split; [exact MapCacher_misses_after_clear|]. split; [exact Hsame|].
  exact (Hget (ClearCache unit_warm) (or_introl eq_refl)).
Defined.

Lemma sessions_never_panic_witness :
  bytes_only (gmap (list byte) Any) all_bytes /\
  all_bytes (cacher unit_cold) /\
  exists u1, run unit_cold session_all = Ret u1 /\ all_bytes (cacher u1).
Proof.
  assert (Hcold : all_bytes (cacher unit_cold)) by apply map_Forall_empty.
  split; [exact MapCacher_bytes_only|]. split; [exact Hcold|].
  exact (sessions_never_panic all_bytes session_all unit_cold
           MapCacher_bytes_only Hcold).
Defined.

Lemma GetBulkFromEpoch_keys_are_requested_witness :
  GetBulkFromEpoch unit_cold [key_a; key_b; key_c; key_a] 3 =
    Ret (unit_warm,
         ([ {| storageCore.Key := key_a; storageCore.Value := val_1 |};
            {| storageCore.Key := key_a; storageCore.Value := val_1 |} ], None)) /\
  [key_a; key_a] `sublist_of` [key_a; key_b; key_c; key_a].
Proof.
  split; [exact GetBulkFromEpoch_run|].
  exact (proj1 (proj2 (GetBulkFromEpoch_keys_are_requested unit_cold
                         [key_a; key_b; key_c; key_a] 3 _ _ _ GetBulkFromEpoch_run))).
Defined.

Lemma MonitorNewCache_cumulated_size_witness :
  cumulatedSizeInBytes (monitoring.MonitorNewCache "cache" 1024 empty_world) = 1024 /\
  cumulatedSizeInBytes
    (monitoring.MonitorNewCache "cache" (2 ^ 64 - 1) empty_world) = -1.
Proof.
  split.
  - destruct (MonitorNewCache_cumulated_size "cache" 1024 empty_world)
      as (_ & _ & Hsmall & _).
    apply Hsmall; cbn; lia.
  - destruct (MonitorNewCache_cumulated_size "cache" (2 ^ 64 - 1) empty_world)
      as (_ & _ & _ & Hlarge).
    rewrite Hlarge; cbn; lia.
Defined.

Lemma NewCache_SizeLRU_size_conversion_witness :
  1024 <= 2048 < 2 ^ 64 /\
  history (NewCache (C := gmap (list byte) Any)
             (cacheConf SizeLRUCache 2048) empty_world).1 =
    [EvMonitorNewCache "cache" 2048; EvNewSizeLRUCache 50 2048] /\
  (NewCache (C := gmap (list byte) Any) (cacheConf SizeLRUCache 2048) empty_world).2
    = (Some ∅, None).
Proof.
  assert (Hsize : 1024 <= 2048 < 2 ^ 64) by lia.
  split; [exact Hsize|].
  exact (NewCache_SizeLRU_size_conversion (C := gmap (list byte) Any)
           (cacheConf SizeLRUCache 2048) empty_world eq_refl Hsize).
Defined.

Lemma NewCache_FIFOSharded_ignores_size_witness :
  (NewCache (C := gmap (list byte) Any) (cacheConf FIFOShardedCache 0) empty_world).2 =
  (NewCache (C := gmap (list byte) Any) (cacheConf FIFOShardedCache 77) empty_world).2.
Proof.
  exact (NewCache_FIFOSharded_ignores_size (C := gmap (list byte) Any)
           (cacheConf FIFOShardedCache 0) (cacheConf FIFOShardedCache 77)
           empty_world empty_world eq_refl eq_refl eq_refl eq_refl).
Defined.

Lemma NewStorageUnit_checks_persister_first_witness :
  NewStorageUnit (@None (gmap (list byte) Any)) (@None MemPersister)
    = (None, Some ErrNilPersister) /\
  NewStorageUnit (@None (gmap (list byte) Any)) (Some (persister unit_cold))
    = (None, Some ErrNilCacher) /\
  NewStorageUnit (Some (cacher unit_cold)) (Some (persister unit_cold))
    = (Some unit_cold, None).
Proof.
  assert (Hnil : IfNil Persister_IsInterfaceNil (@None MemPersister) = true)
    by reflexivity.
  assert (Hp : IfNil Persister_IsInterfaceNil (Some (persister unit_cold)) = false)
    by reflexivity.
  assert (Hc : IfNil Cacher_IsInterfaceNil (@None (gmap (list byte) Any)) = true)
    by reflexivity.
  assert (Hu : (NewStorageUnit (Some (cacher unit_cold))
                  (Some (persister unit_cold))).1 = Some unit_cold) by reflexivity.
  split; [|split].
  - exact (proj1 (NewStorageUnit_checks_persister_first None None) Hnil).
  - exact (proj1 (proj2 (NewStorageUnit_checks_persister_first None
                           (Some (persister unit_cold)))) Hp Hc).
  - exact (proj1 (proj2 (proj2 (NewStorageUnit_checks_persister_first
                                  (Some (cacher unit_cold))
                                  (Some (persister unit_cold)))) unit_cold Hu)).
Defined.

Lemma NewStorageUnitFromConf_cache_error_witness :
  10 <= to_int 50 /\
  NewStorageUnitFromConf (C := gmap (list byte) Any) (cacheConf "LFU" 0) (dbConf 10)
      (Some factory_9) empty_world =
    (monitoring.MonitorNewCache "cache" 0 empty_world, Some factory_9,
     (None, Some ErrNotSupportedCacheType)).
Proof.
  assert (Hbatch : 10 <= to_int 50) by (change (to_int 50) with 50; lia).
  assert (Herr : (NewCache (C := gmap (list byte) Any) (cacheConf "LFU" 0)
                    empty_world).2.2 = Some ErrNotSupportedCacheType) by reflexivity.
  split; [exact Hbatch|].
  exact (proj1 (NewStorageUnitFromConf_cache_error (C := gmap (list byte) Any)
                  (cacheConf "LFU" 0) (dbConf 10) (Some factory_9) empty_world _
                  Hbatch Herr)).
Defined.

Lemma NewStorageUnitFromConf_nil_factory_after_cache_witness :
  10 <= to_int 50 /\
  NewStorageUnitFromConf (C := gmap (list byte) Any) (P := MemPersister)
      cacheConf_50 (dbConf 10) (@None FlakyFactory) empty_world =
    ({| cumulatedSizeInBytes := 0;
        history := [EvMonitorNewCache "cache" 0; EvNewLRUCache 50] |},
     None, (None, Some ErrNilPersisterFactory)).
Proof.
  assert (Hbatch : 10 <= to_int 50) by (change (to_int 50) with 50; lia).
  assert (Hok : (NewCache (C := gmap (list byte) Any) cacheConf_50
                   empty_world).2.2 = None) by reflexivity.
  assert (Hnil : IfNil (Factory_IsInterfaceNil (P := MemPersister))
                   (@None FlakyFactory) = true) by reflexivity.
  split; [exact Hbatch|].
  exact (proj1 (NewStorageUnitFromConf_nil_factory_after_cache
                  (C := gmap (list byte) Any) (P := MemPersister)
                  cacheConf_50 (dbConf 10) None empty_world Hbatch Hok Hnil)).
Defined.

Lemma NewDB_sleeps_witness :
  (exists tr, (NewDB (P := MemPersister) (Some factory_9) "db" empty_world).1.1
              = extend empty_world tr /\ count is_sleep tr = 9%nat) /\
  (exists tr, (NewDB (P := MemPersister) (Some factory_10) "db" empty_world).1.1
              = extend empty_world tr /\ count is_sleep tr = 10%nat /\
              last tr = Some (EvSleep SleepTimeBetweenCreateDBRetries)).
Proof.
  assert (Hnil9 : Factory_IsInterfaceNil (P := MemPersister) factory_9 = false)
    by reflexivity.
  assert (Hnil10 : Factory_IsInterfaceNil (P := MemPersister) factory_10 = false)
    by reflexivity.
  split.
  - assert (Hfail : forall i, (i < 9)%nat ->
              fails (attempt (P := MemPersister) factory_9 "db" i)).
    { intros i Hi. apply FlakyFactory_fails. cbn. lia. }
    assert (Hok : attempt factory_9 "db" 9 =
              (Some {| serial := 10; store := ∅; broken := false |}, None))
      by reflexivity.
    exact (proj1 (NewDB_sleeps factory_9 "db" empty_world Hnil9)
             9%nat _ ltac:(lia) Hfail Hok).
  - apply (proj2 (NewDB_sleeps factory_10 "db" empty_world Hnil10)).
    intros i Hi. apply FlakyFactory_fails. cbn. lia.
Defined.

Lemma NewStorageUnitFromConf_composes_witness :
  10 <= to_int 50 /\
  NewStorageUnitFromConf (C := gmap (list byte) Any) cacheConf_50 (dbConf 10)
      (Some {| calls := 0; failing := 2 |}) empty_world =
    (extend {| cumulatedSizeInBytes := 0;
               history := [EvMonitorNewCache "cache" 0; EvNewLRUCache 50] |}
       (failed_attempts "db" 2 ++ [EvCreate "db"]),
     Some {| calls := 3; failing := 2 |},
     NewStorageUnit (Some ∅) (Some {| serial := 3; store := ∅; broken := false |})).
Proof.
  assert (Hbatch : 10 <= to_int 50) by (change (to_int 50) with 50; lia).
  assert (Hcache : NewCache (C := gmap (list byte) Any) cacheConf_50 empty_world =
            ({| cumulatedSizeInBytes := 0;
                history := [EvMonitorNewCache "cache" 0; EvNewLRUCache 50] |},
             (Some ∅, None))) by reflexivity.
  assert (Hnil : Factory_IsInterfaceNil (P := MemPersister)
                   {| calls := 0; failing := 2 |} = false) by reflexivity.
  assert (Hfail : forall i, (i < 2)%nat ->
            fails (attempt (P := MemPersister) {| calls := 0; failing := 2 |} "db" i)).
  { intros i Hi. apply FlakyFactory_fails. cbn. lia. }
  assert (Hok : attempt {| calls := 0; failing := 2 |} "db" 2 =
            (Some {| serial := 3; store := ∅; broken := false |}, None))
    by reflexivity.
  split; [exact Hbatch|].
  exact (proj1 (NewStorageUnitFromConf_composes (C := gmap (list byte) Any)
                  cacheConf_50 (dbConf 10) {| calls := 0; failing := 2 |}
                  empty_world _ _ Hbatch Hcache Hnil)
           2%nat _ ltac:(lia) Hfail Hok).
Defined.

Lemma NewStorageUnitFromConf_capacity_wraps_on_32_bits_witness :
  to_int (H := arm32) 2147483648 = -2147483648 /\
  NewStorageUnitFromConf (H := arm32) (C := gmap (list byte) Any)
      cacheConf_wide (dbConf 10) (Some factory_9) empty_world =
    (empty_world, Some factory_9, (None, Some ErrCacheSizeIsLowerThanBatchSize)).
Proof.
  assert (Hcap : 2 ^ 31 <= CacheConfig.Capacity cacheConf_wide < 2 ^ 32)
    by (cbn; lia).
  assert (Hbatch : 0 <= DBConfig.MaxBatchSize (dbConf 10)) by (cbn; lia).
  exact (NewStorageUnitFromConf_capacity_wraps_on_32_bits (H := arm32)
           (C := gmap (list byte) Any) cacheConf_wide (dbConf 10)
           (Some factory_9) empty_world eq_refl Hcap Hbatch).
Defined.

Lemma NewDB_with_the_mock_factory_witness :
  NewDB (P := MemPersister) (Some (mock "RocksDB", ())) "db" empty_world =
    (extend empty_world (failed_attempts "db" 10), Some (mock "RocksDB", ()),
     (None, Some (ErrForeign 3))) /\
  NewDB (P := MemPersister) (Some (mock MemoryDB, ())) "db" empty_world =
    (extend empty_world [EvCreate "db"], Some (mock MemoryDB, ()),
     (Some {| serial := 0; store := ∅; broken := false |}, None)).
Proof.
  assert (H1 : dbType (mock "RocksDB") <> LvlDB) by discriminate.
  assert (H2 : dbType (mock "RocksDB") <> LvlDBSerial) by discriminate.
  assert (H3 : dbType (mock "RocksDB") <> MemoryDB) by discriminate.
  split.
  - exact (proj1 (NewDB_with_the_mock_factory (P := MemPersister)
                    (mock "RocksDB") () "db" empty_world) H1 H2 H3).
  - exact (proj2 (NewDB_with_the_mock_factory (P := MemPersister)
                    (mock MemoryDB) () "db" empty_world) eq_refl).
Defined.

End MoreRuns.
